(** * Brewery cart service: the request handlers of [CartController]

    A shallow embedding of [src/controllers/cartController.ts].  Every
    handler of the controller is an [async] method that reads the request,
    awaits a sequence of [axios] calls against the brewery API and answers
    with exactly one [res.status(..).json(..)].  The embedding keeps that
    shape: a handler is a state transformer over the upstream world and the
    log of the calls it has issued, the [try] block is a computation in a
    state-and-rejection monad, and the [catch] block is a pure function of
    the caught error.

    Modelling choices.  JavaScript numbers that are quantities, stock
    levels and prices are binary64 floats, with the kernel's operations
    for [<], [*] and [+]; identifiers are integers or strings, compared
    with [!==] as JavaScript does, without conversion.  The upstream is
    any state machine answering each call with a resolved or a rejected
    promise; a resolved answer has the shape at which the handler reads
    it (an inventory record, a cart item, a cart, or a document that is
    passed through), so the results are about well-formed upstream
    bodies.  The [errors] detail of a failure body is any JSON value.
    The logging calls ([console.error]) have no effect on the response or
    on the upstream and are left out. *)

From Stdlib Require Import ZArith List String Bool Floats DecimalString Permutation.
From Stdlib Require Import Lia DecimalPos DecimalZ.
Import ListNotations.
Local Open Scope string_scope.

Set Warnings "-inexact-float".

Set Implicit Arguments.

(* ===================================================================== *)
(** ** JavaScript values and operators used by the handlers *)
(* ===================================================================== *)

Module Js.

(** Identifiers reach the controller either as numbers (a decoded token,
    an upstream row) or as strings (a path parameter, a form field).
    Numbers used as identifiers are integers, printed in decimal. *)
Inductive value : Type :=
| Num (n : Z)
| Str (s : string).

(** [v.toString()], which is also what a template literal does to [v]. *)
Definition toString (v : value) : string :=
  match v with
  | Num n => NilZero.string_of_int (Z.to_int n)
  | Str s => s
  end.

(** [a === b]: no conversion, values of different types are different. *)
Definition strict_eq (a b : value) : bool :=
  match a, b with
  | Num x, Num y => Z.eqb x y
  | Str s, Str t => String.eqb s t
  | _, _ => false
  end.

(** [a !== b] where [a] may be [undefined] ([None]) and [b] is a value. *)
Definition strict_neq (a : option value) (b : value) : bool :=
  match a with
  | None => true
  | Some x => negb (strict_eq x b)
  end.

(** The integers that a JavaScript number holds exactly and prints in
    plain decimal ([Number.isSafeInteger]). *)
Definition safe_integer (n : Z) : Prop := (- 2 ^ 53 < n < 2 ^ 53)%Z.

(** [a || d] where [d] is a string literal. *)
Definition or_default (a : option string) (d : string) : string :=
  match a with
  | Some s => if String.eqb s "" then d else s
  | None => d
  end.

(** [n || d] on a status code: [0] is falsy. *)
Definition or_status (n : option Z) (d : Z) : Z :=
  match n with
  | Some c => if Z.eqb c 0 then d else c
  | None => d
  end.

End Js.

(* ===================================================================== *)
(** ** Data model *)
(* ===================================================================== *)

(** The identity attached to the request by the token middleware
    ([req.user]).  The declaration of [AuthRequest] lives in
    [middleware/auth], so the type of [id] is left open: any value. *)
Record Actor : Type := { id : Js.value; email : string }.

Record Headers : Type := { authorization : option string }.

(** [req.params]: path segments, always strings. *)
Record Params : Type := { param_user_id : string; param_id : string }.

(** One entry of [validationResult(req).array()]. *)
Record ValidationError : Type := { msg : string }.

(** Body of [POST /cart/add]. *)
Record CartItemRequest : Type :=
  { user_id : Js.value; inventory_id : Js.value; quantity : float }.

(** Body of [PUT /cart/update/:id]. *)
Record QuantityUpdate : Type := { new_quantity : float }.

(** [AuthRequest], with the result of the validation chain that the
    router ran before the handler ([validationResult(req)]). *)
Record AuthRequest (B : Type) : Type :=
  { user : option Actor;
    body : B;
    params : Params;
    headers : Headers;
    validationResult : list ValidationError }.

(** Upstream rows, as far as the handlers read them. *)
Record InventoryRecord : Type := { stockQuantity : float; price : float }.

Record CartItem : Type :=
  { item_id : Js.value;
    item_user_id : Js.value;
    item_inventory_id : Js.value;
    item_quantity : float }.

(** A JSON document that a handler returns without looking inside. *)
#[local] Unset Elimination Schemes.
Inductive Json : Type :=
| JNull
| JBool (b : bool)
| JNumber (x : float)
| JString (s : string)
| JArray (elements : list Json)
| JObject (fields : list (string * Json)).
#[local] Set Elimination Schemes.

(** Truthiness of a JSON value: [null], [false], [0], [-0], [NaN] and [""]
    are falsy, every array and every object is truthy. *)
Definition json_truthy (j : Json) : bool :=
  match j with
  | JNull => false
  | JBool b => b
  | JNumber x => negb (PrimFloat.eqb x 0) && PrimFloat.eqb x x
  | JString s => negb (String.eqb s "")
  | JArray _ | JObject _ => true
  end.

(** [errors || description], where [errors] is a field of a JSON body
    ([None] when the field is missing) and [description] a string or
    [undefined]. *)
Definition detail_or (errors : option Json) (description : option string) : option Json :=
  match errors with
  | Some j => if json_truthy j then Some j else option_map JString description
  | None => option_map JString description
  end.

(** The error object caught by a handler: [error.response] is present when
    the upstream answered with a failure status, [error.message] is the
    description of the failure. *)
Record ErrorData : Type :=
  { data_message : option string; data_errors : option Json }.

Record ErrorResponse : Type :=
  { error_status : Z; error_data : option ErrorData }.

Record AxiosError : Type :=
  { error_response : option ErrorResponse; error_message : option string }.

(** The body handed to [res.json]. *)
Inductive ResBody : Type :=
| ErrorsBody (errors : list ValidationError)
| MessageBody (message : string)
| ErrorEnvelope (message : string) (error : option Json)
| TotalBody (total : float)
| CartBody (items : list CartItem)
| JsonBody (data : Json).

(** [res.status(status).json(json)]. *)
Record Response : Type := { status : Z; json : ResBody }.

(** Does the JSON body have a [message] field? *)
Definition has_message (b : ResBody) : bool :=
  match b with
  | MessageBody _ | ErrorEnvelope _ _ => true
  | _ => false
  end.

(** An answer that Express can send and that tells the caller something:
    its status is not 0, and if its body is an error envelope the message
    is not the empty string. *)
Definition sound_answer (r : Response) : Prop :=
  status r <> 0%Z
  /\ forall (m : string) (detail : option Json), json r = ErrorEnvelope m detail -> m <> "".

(** Is the JSON body the payload of a successful read or mutation? *)
Definition payload_body (b : ResBody) : bool :=
  match b with
  | TotalBody _ | CartBody _ | JsonBody _ => true
  | _ => false
  end.

(* ===================================================================== *)
(** ** Calls to the brewery API *)
(* ===================================================================== *)

Inductive Method : Type := GET | POST | PUT | DELETE.

(** Second argument of [axios.post] / [axios.put]. *)
Inductive Payload : Type :=
| NoPayload
| AddPayload (b : CartItemRequest)
| UpdatePayload (b : QuantityUpdate).

(** The request configuration argument: [{ headers: { Authorization } }]. *)
Record AxiosConfig : Type := { Authorization : option string }.

(** One call as [axios] receives it.  [config] is [None] when the call is
    made without a configuration argument. *)
Record AxiosCall : Type :=
  { method : Method;
    url : string;
    payload : Payload;
    config : option AxiosConfig }.

Definition mutating (c : AxiosCall) : bool :=
  match method c with
  | GET => false
  | _ => true
  end.

(** The shape at which a handler reads [response.data]. *)
Inductive Kind : Type := KInventory | KCartItem | KCart | KJson.

Definition data_of (k : Kind) : Type :=
  match k with
  | KInventory => InventoryRecord
  | KCartItem => CartItem
  | KCart => list CartItem
  | KJson => Json
  end.

(** A settled promise. *)
Inductive AxiosResult (A : Type) : Type :=
| Resolved (data : A)
| Rejected (error : AxiosError).

Arguments Resolved {A} data.
Arguments Rejected {A} error.

(** The calls the controller makes.  None of them passes a configuration
    argument. *)
Definition get_call (u : string) : AxiosCall :=
  {| method := GET; url := u; payload := NoPayload; config := None |}.

Definition post_call (u : string) (b : CartItemRequest) : AxiosCall :=
  {| method := POST; url := u; payload := AddPayload b; config := None |}.

Definition put_call (u : string) (b : QuantityUpdate) : AxiosCall :=
  {| method := PUT; url := u; payload := UpdatePayload b; config := None |}.

Definition delete_call (u : string) : AxiosCall :=
  {| method := DELETE; url := u; payload := NoPayload; config := None |}.

(* ===================================================================== *)
(** ** The controller *)
(* ===================================================================== *)

Section CartController.

(** [config.breweryApiUrl]; the configuration module is a parameter. *)
Variable breweryApiUrl : string.

(** The brewery API: any state, any deterministic answer to a call. *)
Variable World : Type.
Variable axios : forall k : Kind, AxiosCall -> World -> AxiosResult (data_of k) * World.

(** What a run of a handler changes: the upstream, and the log of the
    calls issued so far (oldest first). *)
Record State : Type := { world : World; calls : list AxiosCall }.

(** An awaited computation inside a [try] block: it either throws or
    yields a value. *)
Definition Promise (A : Type) : Type := State -> (AxiosError + A) * State.

Definition ret {A : Type} (a : A) : Promise A := fun s => (inr a, s).

Definition bind {A B : Type} (m : Promise A) (f : A -> Promise B) : Promise B :=
  fun s =>
    match m s with
    | (inl e, s') => (inl e, s')
    | (inr a, s') => f a s'
    end.

Local Notation "x <- m ;; f" := (bind m (fun x => f))
  (at level 61, m at next level, right associativity).

(** [await axios.<method>(...)]. *)
Definition await (k : Kind) (c : AxiosCall) : Promise (data_of k) :=
  fun s =>
    let (r, w) := axios k c (world s) in
    let s' := {| world := w; calls := calls s ++ [c] |} in
    match r with
    | Resolved d => (inr d, s')
    | Rejected e => (inl e, s')
    end.

Definition axios_get (k : Kind) (u : string) : Promise (data_of k) :=
  await k (get_call u).

Definition axios_post (k : Kind) (u : string) (b : CartItemRequest) : Promise (data_of k) :=
  await k (post_call u b).

Definition axios_put (k : Kind) (u : string) (b : QuantityUpdate) : Promise (data_of k) :=
  await k (put_call u b).

Definition axios_delete (k : Kind) (u : string) : Promise (data_of k) :=
  await k (delete_call u).

(** The template literals that build the upstream addresses. *)
Definition inventory_url (inventory : Js.value) : string :=
  breweryApiUrl ++ "/api/inventory/" ++ Js.toString inventory.

Definition cart_add_url : string := breweryApiUrl ++ "/api/cart/add".

Definition cart_url (owner : string) : string := breweryApiUrl ++ "/api/cart/" ++ owner.

Definition cart_item_url (item : string) : string :=
  breweryApiUrl ++ "/api/cart/item/" ++ item.

Definition cart_update_url (item : string) : string :=
  breweryApiUrl ++ "/api/cart/update/" ++ item.

Definition cart_remove_url (item : string) : string :=
  breweryApiUrl ++ "/api/cart/remove/" ++ item.

Definition cart_clear_url (owner : string) : string :=
  breweryApiUrl ++ "/api/cart/clear/" ++ owner.

(** A handler run: one response, and the state it leaves. *)
Definition Handler : Type := State -> Response * State.

Definition respond (code : Z) (b : ResBody) : Handler :=
  fun s => ({| status := code; json := b |}, s).

Definition send (code : Z) (b : ResBody) : Promise Response :=
  ret {| status := code; json := b |}.

(** [try { block } catch (error) { handler }]. *)
Definition try_catch (block : Promise Response) (handler : AxiosError -> Response) : Handler :=
  fun s =>
    match block s with
    | (inr r, s') => (r, s')
    | (inl e, s') => (handler e, s')
    end.

(** [error.response?.status], [error.response?.data?.message],
    [error.response?.data?.errors]. *)
Definition response_status (e : AxiosError) : option Z :=
  option_map error_status (error_response e).

Definition response_data (e : AxiosError) : option ErrorData :=
  match error_response e with
  | Some r => error_data r
  | None => None
  end.

Definition response_message (e : AxiosError) : option string :=
  match response_data e with
  | Some d => data_message d
  | None => None
  end.

Definition response_errors (e : AxiosError) : option Json :=
  match response_data e with
  | Some d => data_errors d
  | None => None
  end.

(** The body of every [catch] block, up to the default message. *)
Definition catch_response (default : string) (e : AxiosError) : Response :=
  {| status := Js.or_status (response_status e) 500;
     json := ErrorEnvelope (Js.or_default (response_message e) default)
                           (detail_or (response_errors e) (error_message e)) |}.

(** [req.user?.id]. *)
Definition user_id_of {B : Type} (req : AuthRequest B) : option Js.value :=
  option_map id (user req).

Definition isEmpty (errors : list ValidationError) : bool :=
  match errors with
  | [] => true
  | _ :: _ => false
  end.

Definition unauthorized : ResBody := MessageBody "Unauthorized".
Definition insufficient_stock : ResBody := MessageBody "Insufficient stock".

(** *** addToCart *)

Definition addToCart_try (req : AuthRequest CartItemRequest) : Promise Response :=
  inventoryResponse <-
    axios_get KInventory (inventory_url (inventory_id (body req))) ;;
  if (stockQuantity inventoryResponse <? quantity (body req))%float
  then send 400 insufficient_stock
  else
    response <- axios_post KJson cart_add_url (body req) ;;
    send 201 (JsonBody response).

Definition addToCart (req : AuthRequest CartItemRequest) : Handler :=
  if negb (isEmpty (validationResult req))
  then respond 400 (ErrorsBody (validationResult req))
  else if Js.strict_neq (user_id_of req) (Js.Str (Js.toString (user_id (body req))))
  then respond 403 unauthorized
  else try_catch (addToCart_try req) (catch_response "Error adding to cart").

(** *** getCart *)

Definition getCart_try {B : Type} (req : AuthRequest B) : Promise Response :=
  response <- axios_get KCart (cart_url (param_user_id (params req))) ;;
  send 200 (CartBody response).

Definition getCart {B : Type} (req : AuthRequest B) : Handler :=
  if Js.strict_neq (user_id_of req) (Js.Str (param_user_id (params req)))
  then respond 403 unauthorized
  else try_catch (getCart_try req) (catch_response "Error getting cart").

(** *** updateCart *)

Definition updateCart_try (req : AuthRequest QuantityUpdate) : Promise Response :=
  cartItemResponse <-
    axios_get KCartItem (cart_item_url (param_id (params req))) ;;
  if Js.strict_neq (user_id_of req) (Js.Str (Js.toString (item_user_id cartItemResponse)))
  then send 403 unauthorized
  else
    inventoryResponse <-
      axios_get KInventory (inventory_url (item_inventory_id cartItemResponse)) ;;
    if (stockQuantity inventoryResponse <? new_quantity (body req))%float
    then send 400 insufficient_stock
    else
      response <-
        axios_put KJson (cart_update_url (param_id (params req))) (body req) ;;
      send 200 (JsonBody response).

Definition updateCart (req : AuthRequest QuantityUpdate) : Handler :=
  if negb (isEmpty (validationResult req))
  then respond 400 (ErrorsBody (validationResult req))
  else try_catch (updateCart_try req) (catch_response "Error updating cart").

(** *** removeFromCart *)

Definition removeFromCart_try {B : Type} (req : AuthRequest B) : Promise Response :=
  cartItemResponse <-
    axios_get KCartItem (cart_item_url (param_id (params req))) ;;
  if Js.strict_neq (user_id_of req) (Js.Str (Js.toString (item_user_id cartItemResponse)))
  then send 403 unauthorized
  else
    response <-
      axios_delete KJson (cart_remove_url (param_id (params req))) ;;
    send 200 (JsonBody response).

Definition removeFromCart {B : Type} (req : AuthRequest B) : Handler :=
  try_catch (removeFromCart_try req) (catch_response "Error removing from cart").

(** *** clearCart *)

Definition clearCart_try {B : Type} (req : AuthRequest B) : Promise Response :=
  response <-
    axios_delete KJson (cart_clear_url (param_user_id (params req))) ;;
  send 200 (MessageBody "Cart cleared successfully").

Definition clearCart {B : Type} (req : AuthRequest B) : Handler :=
  if Js.strict_neq (user_id_of req) (Js.Str (param_user_id (params req)))
  then respond 403 unauthorized
  else try_catch (clearCart_try req) (catch_response "Error clearing cart").

(** *** getCartTotal *)

(** The [for (const item of cartItems)] loop, with the running [total]. *)
Fixpoint total_loop (cartItems : list CartItem) (total : float) : Promise float :=
  match cartItems with
  | [] => ret total
  | item :: rest =>
      inventoryResponse <-
        axios_get KInventory (inventory_url (item_inventory_id item)) ;;
      total_loop rest (total + price inventoryResponse * item_quantity item)%float
  end.

Definition getCartTotal_try {B : Type} (req : AuthRequest B) : Promise Response :=
  cartItems <- axios_get KCart (cart_url (param_user_id (params req))) ;;
  total <- total_loop cartItems 0%float ;;
  send 200 (TotalBody total).

Definition getCartTotal {B : Type} (req : AuthRequest B) : Handler :=
  if Js.strict_neq (user_id_of req) (Js.Str (param_user_id (params req)))
  then respond 403 unauthorized
  else try_catch (getCartTotal_try req) (catch_response "Error calculating cart total").

(** *** What a successful run of the loop looks like *)

(** Starting from the upstream [w], the inventory lookups of the items all
    resolve, one after the other, with the records [records], and leave the
    upstream at [w']. *)
Inductive lookups : World -> list CartItem -> list InventoryRecord -> World -> Prop :=
| lookups_nil : forall w, lookups w [] [] w
| lookups_cons : forall w item record w1 rest records w',
    axios KInventory (get_call (inventory_url (item_inventory_id item))) w
      = (Resolved record, w1) ->
    lookups w1 rest records w' ->
    lookups w (item :: rest) (record :: records) w'.

(** The inventory lookups of a cart, one per item, in cart order. *)
Definition lookup_calls (items : list CartItem) : list AxiosCall :=
  map (fun item => get_call (inventory_url (item_inventory_id item))) items.

(** No call of the log carries a configuration argument, hence none
    carries an [Authorization] header. *)
Definition unconfigured (l : list AxiosCall) : Prop :=
  Forall (fun c => config c = None) l.

(** *** Where a run meets a rejected call

    For each handler, the call sites of its [try] block in the order of the
    source: a site is reached when the checks before it passed and the
    calls before it resolved.  [<handler>_rejected req s e s'] says that
    the handler, run on [req] from [s], reaches a call that the upstream
    rejects with [e], and that [s'] is the state right after that call: the
    upstream as the rejected call left it, the log up to and including
    that call. *)

Inductive addToCart_rejected (req : AuthRequest CartItemRequest) (s : State) (e : AxiosError)
  : State -> Prop :=
| add_lookup_rejected : forall w,
    validationResult req = [] ->
    Js.strict_neq (user_id_of req) (Js.Str (Js.toString (user_id (body req)))) = false ->
    axios KInventory (get_call (inventory_url (inventory_id (body req)))) (world s)
      = (Rejected e, w) ->
    addToCart_rejected req s e
      {| world := w;
         calls := calls s ++ [get_call (inventory_url (inventory_id (body req)))] |}
| add_post_rejected : forall record w1 w,
    validationResult req = [] ->
    Js.strict_neq (user_id_of req) (Js.Str (Js.toString (user_id (body req)))) = false ->
    axios KInventory (get_call (inventory_url (inventory_id (body req)))) (world s)
      = (Resolved record, w1) ->
    (stockQuantity record <? quantity (body req))%float = false ->
    axios KJson (post_call cart_add_url (body req)) w1 = (Rejected e, w) ->
    addToCart_rejected req s e
      {| world := w;
         calls := calls s ++ [get_call (inventory_url (inventory_id (body req)));
                              post_call cart_add_url (body req)] |}.

Inductive getCart_rejected {B : Type} (req : AuthRequest B) (s : State) (e : AxiosError)
  : State -> Prop :=
| get_fetch_rejected : forall w,
    Js.strict_neq (user_id_of req) (Js.Str (param_user_id (params req))) = false ->
    axios KCart (get_call (cart_url (param_user_id (params req)))) (world s)
      = (Rejected e, w) ->
    getCart_rejected req s e
      {| world := w; calls := calls s ++ [get_call (cart_url (param_user_id (params req)))] |}.

Inductive updateCart_rejected (req : AuthRequest QuantityUpdate) (s : State) (e : AxiosError)
  : State -> Prop :=
| update_fetch_rejected : forall w,
    validationResult req = [] ->
    axios KCartItem (get_call (cart_item_url (param_id (params req)))) (world s)
      = (Rejected e, w) ->
    updateCart_rejected req s e
      {| world := w; calls := calls s ++ [get_call (cart_item_url (param_id (params req)))] |}
| update_lookup_rejected : forall item w0 w,
    validationResult req = [] ->
    axios KCartItem (get_call (cart_item_url (param_id (params req)))) (world s)
      = (Resolved item, w0) ->
    Js.strict_neq (user_id_of req) (Js.Str (Js.toString (item_user_id item))) = false ->
    axios KInventory (get_call (inventory_url (item_inventory_id item))) w0
      = (Rejected e, w) ->
    updateCart_rejected req s e
      {| world := w;
         calls := calls s ++ [get_call (cart_item_url (param_id (params req)));
                              get_call (inventory_url (item_inventory_id item))] |}
| update_put_rejected : forall item w0 record w1 w,
    validationResult req = [] ->
    axios KCartItem (get_call (cart_item_url (param_id (params req)))) (world s)
      = (Resolved item, w0) ->
    Js.strict_neq (user_id_of req) (Js.Str (Js.toString (item_user_id item))) = false ->
    axios KInventory (get_call (inventory_url (item_inventory_id item))) w0
      = (Resolved record, w1) ->
    (stockQuantity record <? new_quantity (body req))%float = false ->
    axios KJson (put_call (cart_update_url (param_id (params req))) (body req)) w1
      = (Rejected e, w) ->
    updateCart_rejected req s e
      {| world := w;
         calls := calls s ++ [get_call (cart_item_url (param_id (params req)));
                              get_call (inventory_url (item_inventory_id item));
                              put_call (cart_update_url (param_id (params req))) (body req)] |}.

Inductive removeFromCart_rejected {B : Type} (req : AuthRequest B) (s : State) (e : AxiosError)
  : State -> Prop :=
| remove_fetch_rejected : forall w,
    axios KCartItem (get_call (cart_item_url (param_id (params req)))) (world s)
      = (Rejected e, w) ->
    removeFromCart_rejected req s e
      {| world := w; calls := calls s ++ [get_call (cart_item_url (param_id (params req)))] |}
| remove_delete_rejected : forall item w0 w,
    axios KCartItem (get_call (cart_item_url (param_id (params req)))) (world s)
      = (Resolved item, w0) ->
    Js.strict_neq (user_id_of req) (Js.Str (Js.toString (item_user_id item))) = false ->
    axios KJson (delete_call (cart_remove_url (param_id (params req)))) w0 = (Rejected e, w) ->
    removeFromCart_rejected req s e
      {| world := w;
         calls := calls s ++ [get_call (cart_item_url (param_id (params req)));
                              delete_call (cart_remove_url (param_id (params req)))] |}.

Inductive clearCart_rejected {B : Type} (req : AuthRequest B) (s : State) (e : AxiosError)
  : State -> Prop :=
| clear_delete_rejected : forall w,
    Js.strict_neq (user_id_of req) (Js.Str (param_user_id (params req))) = false ->
    axios KJson (delete_call (cart_clear_url (param_user_id (params req)))) (world s)
      = (Rejected e, w) ->
    clearCart_rejected req s e
      {| world := w;
         calls := calls s ++ [delete_call (cart_clear_url (param_user_id (params req)))] |}.

Inductive getCartTotal_rejected {B : Type} (req : AuthRequest B) (s : State) (e : AxiosError)
  : State -> Prop :=
| total_fetch_rejected : forall w,
    Js.strict_neq (user_id_of req) (Js.Str (param_user_id (params req))) = false ->
    axios KCart (get_call (cart_url (param_user_id (params req)))) (world s)
      = (Rejected e, w) ->
    getCartTotal_rejected req s e
      {| world := w; calls := calls s ++ [get_call (cart_url (param_user_id (params req)))] |}
| total_lookup_rejected : forall before item after w1 records w2 w,
    Js.strict_neq (user_id_of req) (Js.Str (param_user_id (params req))) = false ->
    axios KCart (get_call (cart_url (param_user_id (params req)))) (world s)
      = (Resolved (before ++ item :: after)%list, w1) ->
    lookups w1 before records w2 ->
    axios KInventory (get_call (inventory_url (item_inventory_id item))) w2
      = (Rejected e, w) ->
    getCartTotal_rejected req s e
      {| world := w;
         calls := calls s
                  ++ get_call (cart_url (param_user_id (params req)))
                     :: lookup_calls before
                        ++ [get_call (inventory_url (item_inventory_id item))] |}.

(** The mutations of a log: its calls other than reads, in order. *)
Definition mutations (l : list AxiosCall) : list AxiosCall := filter mutating l.

(** The call is addressed to the brewery API. *)
Definition targets_api (c : AxiosCall) : Prop :=
  String.prefix breweryApiUrl (url c) = true.

(** The handler ran from [s] to [s'] and issued exactly the calls [l]. *)
Definition issued (s s' : State) (l : list AxiosCall) : Prop :=
  calls s' = (calls s ++ l)%list.

End CartController.

(** The running total after the lines [(price, quantity)], in order: each
    product and each partial sum is a binary64 operation. *)
Definition accumulate (total : float) (lines : list (float * float)) : float :=
  fold_left (fun t line => (t + fst line * snd line)%float) lines total.

Definition line (item : CartItem) (record : InventoryRecord) : float * float :=
  (price record, item_quantity item).

Definition lines (items : list CartItem) (records : list InventoryRecord) : list (float * float) :=
  map (fun p => line (fst p) (snd p)) (combine items records).

Arguments world {World} s.
Arguments calls {World} s.

(* ===================================================================== *)
(** ** A scripted brewery API

    The upstream used to run the handlers on concrete requests: a queue of
    prepared answers, consumed one per call, in the manner of the mocked
    [axios] of the controller's test-suite. *)
(* ===================================================================== *)

Module Mock.

Inductive Answer : Type :=
| Answers (k : Kind) (r : AxiosResult (data_of k)).

Definition World : Type := list Answer.

Definition Kind_eq_dec (a b : Kind) : {a = b} + {a <> b}.
Proof. decide equality. Defined.

Definition unscripted : AxiosError :=
  {| error_response := None; error_message := Some "no answer scripted" |}.

Definition axios (k : Kind) (c : AxiosCall) (w : World) : AxiosResult (data_of k) * World :=
  match w with
  | [] => (Rejected unscripted, [])
  | Answers k' r :: rest =>
      match Kind_eq_dec k' k with
      | left e => (eq_rect k' (fun x => AxiosResult (data_of x)) r k e, rest)
      | right _ => (Rejected unscripted, rest)
      end
  end.

Definition start (w : World) : State World := {| world := w; calls := [] |}.

Definition apiUrl : string := "http://localhost:5089".

Definition resolves (k : Kind) (d : data_of k) : Answer := Answers k (Resolved d).
Definition rejects (k : Kind) (e : AxiosError) : Answer := Answers k (Rejected e).

End Mock.

(* ===================================================================== *)
(** ** Concrete requests *)
(* ===================================================================== *)

Module Scenario.

Definition bearer : Headers := {| authorization := Some "Bearer mock-token" |}.

(** The actor as the token middleware of the test-suite supplies it. *)
Definition numeric_actor : Actor := {| id := Js.Num 1; email := "test@example.com" |}.

(** An actor whose identifier is the string ["1"]. *)
Definition string_actor : Actor := {| id := Js.Str "1"; email := "test@example.com" |}.

Definition add_body : CartItemRequest :=
  {| user_id := Js.Str "1"; inventory_id := Js.Str "1"; quantity := 2%float |}.

Definition request {B : Type} (a : option Actor) (b : B) (uid cid : string)
    (errs : list ValidationError) : AuthRequest B :=
  {| user := a;
     body := b;
     params := {| param_user_id := uid; param_id := cid |};
     headers := bearer;
     validationResult := errs |}.

Definition quantity_error : ValidationError := {| msg := "Quantity must be at least 1" |}.

Definition item (owner inv : Z) (q : float) : CartItem :=
  {| item_id := Js.Num 1;
     item_user_id := Js.Num owner;
     item_inventory_id := Js.Num inv;
     item_quantity := q |}.

Definition stock (q p : float) : InventoryRecord := {| stockQuantity := q; price := p |}.

Definition created : Json :=
  JObject [("id", JNumber 1); ("user_id", JNumber 1);
           ("inventory_id", JNumber 1); ("quantity", JNumber 2)].

(** An upstream failure as [axios] raises it for a 404 answer. *)
Definition not_found : AxiosError :=
  {| error_response :=
       Some {| error_status := 404;
               error_data := Some {| data_message := Some "Inventory not found";
                                     data_errors := None |} |};
     error_message := Some "Request failed with status code 404" |}.

Definition network_error : AxiosError :=
  {| error_response := None; error_message := Some "Network error" |}.

(** A failure whose response is there but says nothing: status 0, empty
    message, empty detail. *)
Definition blank_response : ErrorResponse :=
  {| error_status := 0;
     error_data := Some {| data_message := Some ""; data_errors := Some (JString "") |} |}.

Definition blank_failure : AxiosError :=
  {| error_response := Some blank_response; error_message := Some "Network error" |}.

(** Requests of an actor whose id is the string ["1"]. *)
Definition owner_add : AuthRequest CartItemRequest :=
  request (Some string_actor) add_body "" "" [].

Definition owner_update : AuthRequest QuantityUpdate :=
  request (Some string_actor) {| new_quantity := 3%float |} "" "1" [].

Definition owner_path : AuthRequest unit := request (Some string_actor) tt "1" "" [].

Definition owner_item : AuthRequest unit := request (Some string_actor) tt "" "1" [].

(** Requests of the actor of the test-suite, whose id is the number 1. *)
Definition tester_add : AuthRequest CartItemRequest :=
  request (Some numeric_actor) add_body "" "" [].

Definition tester_update : AuthRequest QuantityUpdate :=
  request (Some numeric_actor) {| new_quantity := 3%float |} "" "1" [].

Definition tester_path : AuthRequest unit := request (Some numeric_actor) tt "1" "" [].

Definition tester_item : AuthRequest unit := request (Some numeric_actor) tt "" "1" [].

(** Requests that failed validation. *)
Definition invalid_add : AuthRequest CartItemRequest :=
  request (Some numeric_actor)
    {| user_id := Js.Str "1"; inventory_id := Js.Str "1"; quantity := 0%float |}
    "" "" [quantity_error].

Definition invalid_update : AuthRequest QuantityUpdate :=
  request (Some numeric_actor) {| new_quantity := 0%float |} "" "1" [quantity_error].

Definition refused : Response := {| status := 403; json := MessageBody "Unauthorized" |}.

End Scenario.

(* ===================================================================== *)
(** ** A brewery API with a fixed price list

    A second concrete upstream: its state is the cart it stores, and every
    inventory lookup is answered from a price list, by address, whatever
    the order of the calls. *)
(* ===================================================================== *)

Module Catalogue.

Definition World : Type := list CartItem.

Definition prices : list (string * float) :=
  [ (inventory_url Mock.apiUrl (Js.Num 1), 0.1%float);
    (inventory_url Mock.apiUrl (Js.Num 2), 0.2%float);
    (inventory_url Mock.apiUrl (Js.Num 3), 0.3%float) ].

Fixpoint price_at (table : list (string * float)) (u : string) : option float :=
  match table with
  | [] => None
  | (u', p) :: rest => if String.eqb u' u then Some p else price_at rest u
  end.

Definition axios (k : Kind) (c : AxiosCall) (w : World) : AxiosResult (data_of k) * World :=
  match k return AxiosResult (data_of k) * World with
  | KCart => (Resolved w, w)
  | KInventory =>
      match price_at prices (url c) with
      | Some p => (Resolved {| stockQuantity := 100%float; price := p |}, w)
      | None => (Rejected Scenario.not_found, w)
      end
  | KCartItem => (Rejected Scenario.not_found, w)
  | KJson => (Rejected Scenario.not_found, w)
  end.

Definition one (inventory : Z) : CartItem := Scenario.item 1 inventory 1%float.

Definition total_of (cart : World) : ResBody :=
  json (fst (getCartTotal Mock.apiUrl axios
               (Scenario.request (Some Scenario.string_actor) tt "1" "" [])
               {| world := cart; calls := [] |})).

End Catalogue.

(* ===================================================================== *)
(** ** Properties of the handlers, for every brewery API *)
(* ===================================================================== *)

Section Properties.

Variable breweryApiUrl : string.
Variable World : Type.
Variable axios : forall k : Kind, AxiosCall -> World -> AxiosResult (data_of k) * World.

(** *** One awaited call *)

Lemma await_resolved (k : Kind) (c : AxiosCall) (s : State World) d w :
  axios k c (world s) = (Resolved d, w) ->
  await axios k c s = (inr d, {| world := w; calls := calls s ++ [c] |}).
Proof. intros H. unfold await. rewrite H. reflexivity. Qed.

Lemma await_rejected (k : Kind) (c : AxiosCall) (s : State World) e w :
  axios k c (world s) = (Rejected e, w) ->
  await axios k c s = (inl e, {| world := w; calls := calls s ++ [c] |}).
Proof. intros H. unfold await. rewrite H. reflexivity. Qed.

(** A call is logged whatever its outcome. *)
Lemma await_logs (k : Kind) (c : AxiosCall) (s : State World) :
  calls (snd (await axios k c s)) = (calls s ++ [c])%list.
Proof.
  unfold await. destruct (axios k c (world s)) as [[d | e] w]; reflexivity.
Qed.

(** *** The identity comparison *)

(** A number is never strictly equal to a string. *)
Lemma number_never_matches (a : Actor) (n : Z) (owner : string) :
  id a = Js.Num n -> Js.strict_neq (Some (id a)) (Js.Str owner) = true.
Proof. intros ->. reflexivity. Qed.

(** An absent actor never matches. *)
Lemma absent_never_matches (owner : Js.value) : Js.strict_neq None owner = true.
Proof. reflexivity. Qed.

(** The comparison lets a request through exactly when the actor's id is
    the very string it is compared with. *)
Lemma strict_neq_false (o : option Js.value) (owner : string) :
  Js.strict_neq o (Js.Str owner) = false <-> o = Some (Js.Str owner).
Proof.
  destruct o as [[n | t] |]; simpl; split; intros H; try discriminate.
  - apply negb_false_iff, String.eqb_eq in H. now subst.
  - injection H as ->. now rewrite String.eqb_refl.
Qed.

(** Whatever the body, an actor whose id is a number is refused by
    [addToCart]. *)
Lemma addToCart_refuses_every_number
    (req : AuthRequest CartItemRequest) (a : Actor) (n : Z) (s : State World) :
  validationResult req = [] ->
  user req = Some a ->
  id a = Js.Num n ->
  addToCart breweryApiUrl axios req s = (Scenario.refused, s).
Proof.
  intros Hval Huser Hid. unfold addToCart, user_id_of.
  rewrite Hval, Huser. simpl. now rewrite Hid.
Qed.

(** [updateCart] and [removeFromCart] decide after exactly one call, the
    fetch of the cart item; a request that fails the comparison with the
    fetched owner, in particular one without an actor, is answered 403. *)
Lemma updateCart_decides_after_the_fetch
    (req : AuthRequest QuantityUpdate) (s : State World) (item : CartItem) (w : World) :
  let fetch := get_call (cart_item_url breweryApiUrl (param_id (params req))) in
  validationResult req = [] ->
  axios KCartItem fetch (world s) = (Resolved item, w) ->
  Js.strict_neq (user_id_of req) (Js.Str (Js.toString (item_user_id item))) = true ->
  updateCart breweryApiUrl axios req s
  = (Scenario.refused, {| world := w; calls := calls s ++ [fetch] |}).
Proof.
  intros fetch Hval Hitem Hauth. unfold updateCart. rewrite Hval. simpl.
  unfold try_catch, updateCart_try, bind, axios_get. fold fetch.
  erewrite await_resolved by exact Hitem. now rewrite Hauth.
Qed.

Lemma removeFromCart_decides_after_the_fetch
    (B : Type) (req : AuthRequest B) (s : State World) (item : CartItem) (w : World) :
  let fetch := get_call (cart_item_url breweryApiUrl (param_id (params req))) in
  axios KCartItem fetch (world s) = (Resolved item, w) ->
  Js.strict_neq (user_id_of req) (Js.Str (Js.toString (item_user_id item))) = true ->
  removeFromCart breweryApiUrl axios req s
  = (Scenario.refused, {| world := w; calls := calls s ++ [fetch] |}).
Proof.
  intros fetch Hitem Hauth.
  unfold removeFromCart, try_catch, removeFromCart_try, bind, axios_get. fold fetch.
  erewrite await_resolved by exact Hitem. now rewrite Hauth.
Qed.

Lemma removeFromCart_without_actor
    (B : Type) (req : AuthRequest B) (s : State World) (item : CartItem) (w : World) :
  user req = None ->
  axios KCartItem (get_call (cart_item_url breweryApiUrl (param_id (params req)))) (world s)
    = (Resolved item, w) ->
  fst (removeFromCart breweryApiUrl axios req s) = Scenario.refused.
Proof.
  intros Huser Hitem.
  rewrite (removeFromCart_decides_after_the_fetch req s Hitem); [reflexivity |].
  unfold user_id_of. now rewrite Huser.
Qed.

(** C1 (defect of the code).  The claim lets an add request through when
    the actor's id equals [parseInt(body.user_id)].  On the request of the
    controller's test "should add to cart successfully" (the actor's id is
    the number 1, [body.user_id] is ["1"], validation passed) [addToCart]
    answers 403 [{ message: "Unauthorized" }] and issues no upstream call,
    whatever the upstream is: the check [req.user?.id !==
    req.body.user_id.toString()] compares a number with a string.  The
    same holds for every actor whose id is a number, whatever the body. *)
Theorem addToCart_refuses_numeric_actor :
  forall s : State World,
    addToCart breweryApiUrl axios Scenario.tester_add s
    = ({| status := 403; json := MessageBody "Unauthorized" |}, s)
    /\ forall (n : Z) (mail : string) (b : CartItemRequest) (p : Params) (h : Headers),
         addToCart breweryApiUrl axios
           {| user := Some {| id := Js.Num n; email := mail |};
              body := b; params := p; headers := h; validationResult := [] |} s
         = ({| status := 403; json := MessageBody "Unauthorized" |}, s).
Proof.
  intros s. split; [reflexivity |].
  intros n mail b p h.
  now apply addToCart_refuses_every_number with (a := {| id := Js.Num n; email := mail |}) (n := n).
Qed.

(** C2 (defect of the code).  The claim lets a read, clear or total request
    through when the actor's id, converted to a string, equals the path
    [user_id].  For the actor of the test-suite (id the number 1) and the
    path [user_id] ["1"] the conversion gives ["1"], yet [getCart],
    [clearCart] and [getCartTotal] answer 403 [{ message: "Unauthorized" }]
    with no upstream call: the check [req.user?.id !== req.params.user_id]
    does not convert the id.  The same holds for every actor whose id is a
    number, whatever the path. *)
Theorem path_handlers_refuse_numeric_actor :
  forall s : State World,
    let req := Scenario.tester_path in
    let refused := ({| status := 403; json := MessageBody "Unauthorized" |}, s) in
    Js.toString (id Scenario.numeric_actor) = param_user_id (params req)
    /\ getCart breweryApiUrl axios req s = refused
    /\ clearCart breweryApiUrl axios req s = refused
    /\ getCartTotal breweryApiUrl axios req s = refused
    /\ forall (n : Z) (mail : string) (p : Params) (h : Headers),
         let any := {| user := Some {| id := Js.Num n; email := mail |};
                       body := tt; params := p; headers := h; validationResult := [] |} in
         getCart breweryApiUrl axios any s = refused
         /\ clearCart breweryApiUrl axios any s = refused
         /\ getCartTotal breweryApiUrl axios any s = refused.
Proof. intros s. repeat split. Qed.

(** C7.  When the validation result of an add or update request is not
    empty, the handler answers 400 with the whole list of field errors and
    leaves the state as it found it: the upstream is untouched and no call
    is logged.  Nothing is assumed about the actor, so the answer comes
    before the authorization check. *)
Theorem validation_failure_short_circuits :
  forall (add : AuthRequest CartItemRequest) (update : AuthRequest QuantityUpdate)
         (s : State World),
    validationResult add <> [] ->
    validationResult update <> [] ->
    addToCart breweryApiUrl axios add s
      = ({| status := 400; json := ErrorsBody (validationResult add) |}, s)
    /\ updateCart breweryApiUrl axios update s
      = ({| status := 400; json := ErrorsBody (validationResult update) |}, s).
Proof.
  intros add update s Ha Hu. unfold addToCart, updateCart.
  destruct (validationResult add); [contradiction |].
  destruct (validationResult update); [contradiction |].
  split; reflexivity.
Qed.

(** C10.  When the actor passes the authorization check of [getCartTotal]
    and the cart fetch resolves with an empty list, the answer is 200
    [{ total: 0 }] and the cart fetch is the only call issued. *)
Theorem getCartTotal_empty_cart :
  forall (B : Type) (req : AuthRequest B) (s : State World) (w : World),
    Js.strict_neq (user_id_of req) (Js.Str (param_user_id (params req))) = false ->
    axios KCart (get_call (cart_url breweryApiUrl (param_user_id (params req)))) (world s)
      = (Resolved [], w) ->
    getCartTotal breweryApiUrl axios req s
    = ({| status := 200; json := TotalBody 0 |},
       {| world := w;
          calls := calls s ++ [get_call (cart_url breweryApiUrl (param_user_id (params req)))] |}).
Proof.
  intros B req s w Hauth Hcart. unfold getCartTotal. rewrite Hauth.
  unfold try_catch, getCartTotal_try, bind, axios_get.
  erewrite await_resolved by exact Hcart. reflexivity.
Qed.

(** *** The stock check *)

Lemma try_catch_rejected (block : Promise World Response) handler (s s' : State World) e :
  block s = (inl e, s') -> try_catch block handler s = (handler e, s').
Proof. intros H. unfold try_catch. now rewrite H. Qed.

Lemma try_catch_returned (block : Promise World Response) handler (s s' : State World) r :
  block s = (inr r, s') -> try_catch block handler s = (r, s').
Proof. intros H. unfold try_catch. now rewrite H. Qed.

Lemma addToCart_stock_check
    (req : AuthRequest CartItemRequest) (s : State World) (record : InventoryRecord) (w : World) :
  let lookup := get_call (inventory_url breweryApiUrl (inventory_id (body req))) in
  let add := post_call (cart_add_url breweryApiUrl) (body req) in
  validationResult req = [] ->
  Js.strict_neq (user_id_of req) (Js.Str (Js.toString (user_id (body req)))) = false ->
  axios KInventory lookup (world s) = (Resolved record, w) ->
  ((stockQuantity record <? quantity (body req))%float = true ->
     addToCart breweryApiUrl axios req s
     = ({| status := 400; json := MessageBody "Insufficient stock" |},
        {| world := w; calls := calls s ++ [lookup] |})
     /\ filter mutating [lookup] = [])
  /\
  ((stockQuantity record <? quantity (body req))%float = false ->
     issued s (snd (addToCart breweryApiUrl axios req s)) [lookup; add]
     /\ filter mutating [lookup; add] = [add]
     /\ payload add = AddPayload (body req)
     /\ forall d w',
          axios KJson add w = (Resolved d, w') ->
          addToCart breweryApiUrl axios req s
          = ({| status := 201; json := JsonBody d |},
             {| world := w'; calls := calls s ++ [lookup; add] |})).
Proof.
  intros lookup add Hval Hauth Hinv.
  unfold addToCart. rewrite Hval, Hauth. simpl.
  unfold try_catch, addToCart_try, bind, axios_get.
  fold lookup. erewrite await_resolved by exact Hinv.
  split; intros Hlt; rewrite Hlt.
  - split; reflexivity.
  - unfold axios_post. fold add. unfold issued, await. simpl.
    repeat split.
    + destruct (axios KJson add w) as [[d | e] w']; simpl;
        now rewrite <- app_assoc.
    + intros d w' Hadd. rewrite Hadd. simpl. now rewrite <- app_assoc.
Qed.

Lemma updateCart_stock_check
    (req : AuthRequest QuantityUpdate) (s : State World)
    (item : CartItem) (w0 : World) (record : InventoryRecord) (w : World) :
  let fetch := get_call (cart_item_url breweryApiUrl (param_id (params req))) in
  let lookup := get_call (inventory_url breweryApiUrl (item_inventory_id item)) in
  let update := put_call (cart_update_url breweryApiUrl (param_id (params req))) (body req) in
  validationResult req = [] ->
  axios KCartItem fetch (world s) = (Resolved item, w0) ->
  Js.strict_neq (user_id_of req) (Js.Str (Js.toString (item_user_id item))) = false ->
  axios KInventory lookup w0 = (Resolved record, w) ->
  ((stockQuantity record <? new_quantity (body req))%float = true ->
     updateCart breweryApiUrl axios req s
     = ({| status := 400; json := MessageBody "Insufficient stock" |},
        {| world := w; calls := calls s ++ [fetch; lookup] |})
     /\ filter mutating [fetch; lookup] = [])
  /\
  ((stockQuantity record <? new_quantity (body req))%float = false ->
     issued s (snd (updateCart breweryApiUrl axios req s)) [fetch; lookup; update]
     /\ filter mutating [fetch; lookup; update] = [update]
     /\ payload update = UpdatePayload (body req)
     /\ forall d w',
          axios KJson update w = (Resolved d, w') ->
          updateCart breweryApiUrl axios req s
          = ({| status := 200; json := JsonBody d |},
             {| world := w'; calls := calls s ++ [fetch; lookup; update] |})).
Proof.
  intros fetch lookup update Hval Hitem Hauth Hinv.
  unfold updateCart. rewrite Hval. simpl.
  unfold try_catch, updateCart_try, bind, axios_get.
  fold fetch. erewrite await_resolved by exact Hitem.
  rewrite Hauth. fold lookup. erewrite await_resolved by exact Hinv.
  split; intros Hlt; rewrite Hlt.
  - split; [| reflexivity]. simpl. now rewrite <- app_assoc.
  - unfold axios_put. fold update. unfold issued, await. simpl.
    repeat split.
    + destruct (axios KJson update w) as [[d | e] w']; simpl;
        now rewrite <- !app_assoc.
    + intros d w' Hput. rewrite Hput. simpl. now rewrite <- !app_assoc.
Qed.

(** C4.  For an add request and for an update request that passed
    validation and the authorization check, and whose inventory lookup
    resolved: when the stock is less than the requested quantity the
    answer is 400 [{ message: "Insufficient stock" }] and none of the calls
    issued is a mutation; otherwise the calls issued are the reads followed
    by exactly one mutation, which carries the request body, and when that
    call resolves its body is returned with status 201 (add) or 200
    (update). *)
Theorem stock_check_gates_the_mutation :
  (forall (req : AuthRequest CartItemRequest) (s : State World) record w,
     let lookup := get_call (inventory_url breweryApiUrl (inventory_id (body req))) in
     let add := post_call (cart_add_url breweryApiUrl) (body req) in
     validationResult req = [] ->
     Js.strict_neq (user_id_of req) (Js.Str (Js.toString (user_id (body req)))) = false ->
     axios KInventory lookup (world s) = (Resolved record, w) ->
     ((stockQuantity record <? quantity (body req))%float = true ->
        addToCart breweryApiUrl axios req s
        = ({| status := 400; json := MessageBody "Insufficient stock" |},
           {| world := w; calls := calls s ++ [lookup] |})
        /\ filter mutating [lookup] = [])
     /\
     ((stockQuantity record <? quantity (body req))%float = false ->
        issued s (snd (addToCart breweryApiUrl axios req s)) [lookup; add]
        /\ filter mutating [lookup; add] = [add]
        /\ payload add = AddPayload (body req)
        /\ forall d w',
             axios KJson add w = (Resolved d, w') ->
             addToCart breweryApiUrl axios req s
             = ({| status := 201; json := JsonBody d |},
                {| world := w'; calls := calls s ++ [lookup; add] |})))
  /\
  (forall (req : AuthRequest QuantityUpdate) (s : State World) item w0 record w,
     let fetch := get_call (cart_item_url breweryApiUrl (param_id (params req))) in
     let lookup := get_call (inventory_url breweryApiUrl (item_inventory_id item)) in
     let update := put_call (cart_update_url breweryApiUrl (param_id (params req))) (body req) in
     validationResult req = [] ->
     axios KCartItem fetch (world s) = (Resolved item, w0) ->
     Js.strict_neq (user_id_of req) (Js.Str (Js.toString (item_user_id item))) = false ->
     axios KInventory lookup w0 = (Resolved record, w) ->
     ((stockQuantity record <? new_quantity (body req))%float = true ->
        updateCart breweryApiUrl axios req s
        = ({| status := 400; json := MessageBody "Insufficient stock" |},
           {| world := w; calls := calls s ++ [fetch; lookup] |})
        /\ filter mutating [fetch; lookup] = [])
     /\
     ((stockQuantity record <? new_quantity (body req))%float = false ->
        issued s (snd (updateCart breweryApiUrl axios req s)) [fetch; lookup; update]
        /\ filter mutating [fetch; lookup; update] = [update]
        /\ payload update = UpdatePayload (body req)
        /\ forall d w',
             axios KJson update w = (Resolved d, w') ->
             updateCart breweryApiUrl axios req s
             = ({| status := 200; json := JsonBody d |},
                {| world := w'; calls := calls s ++ [fetch; lookup; update] |}))).
Proof.
  split.
  - intros req s record w. apply addToCart_stock_check.
  - intros req s item w0 record w. apply updateCart_stock_check.
Qed.

(** *** The total *)

(** The loop, when every lookup resolves: one call per item, in cart
    order, and the running total after the last item. *)
Lemma total_loop_lookups (w : World) items records (w' : World) :
  lookups breweryApiUrl axios w items records w' ->
  forall (total : float) (log : list AxiosCall),
    total_loop breweryApiUrl axios items total {| world := w; calls := log |}
    = (inr (accumulate total (lines items records)),
       {| world := w'; calls := log ++ lookup_calls breweryApiUrl items |}).
Proof.
  induction 1 as [w | w item record w1 rest records w' Hcall Hrest IH];
    intros total log; simpl.
  - unfold ret. now rewrite app_nil_r.
  - unfold bind, axios_get. erewrite await_resolved by exact Hcall.
    simpl. rewrite IH. now rewrite <- app_assoc.
Qed.

(** The loop stops at the first lookup that is rejected. *)
Lemma total_loop_rejected (item : CartItem) rest (total : float) (s : State World) e w :
  axios KInventory (get_call (inventory_url breweryApiUrl (item_inventory_id item))) (world s)
    = (Rejected e, w) ->
  total_loop breweryApiUrl axios (item :: rest) total s
  = (inl e, {| world := w;
               calls := calls s
                        ++ [get_call (inventory_url breweryApiUrl (item_inventory_id item))] |}).
Proof.
  intros H. simpl. unfold bind, axios_get. now erewrite await_rejected by exact H.
Qed.

(** C5 (as amended).  When the actor passes the authorization check of
    [getCartTotal], the cart fetch resolves and every inventory lookup
    resolves, the answer is 200 [{ total }] where [total] is the binary64
    accumulation, from 0 and in cart order, of price times quantity, each
    product and each partial sum rounded as a JavaScript number; the calls
    issued are the cart fetch and one lookup per item.  For quantities 2
    and 1 at prices 5.99 and 3.99 the accumulation is the number 15.97. *)
Theorem getCartTotal_accumulates_in_cart_order :
  forall (B : Type) (req : AuthRequest B) (s : State World) items w1 records w2,
    Js.strict_neq (user_id_of req) (Js.Str (param_user_id (params req))) = false ->
    axios KCart (get_call (cart_url breweryApiUrl (param_user_id (params req)))) (world s)
      = (Resolved items, w1) ->
    lookups breweryApiUrl axios w1 items records w2 ->
    getCartTotal breweryApiUrl axios req s
    = ({| status := 200; json := TotalBody (accumulate 0 (lines items records)) |},
       {| world := w2;
          calls := calls s
                   ++ get_call (cart_url breweryApiUrl (param_user_id (params req)))
                      :: lookup_calls breweryApiUrl items |})
    /\ accumulate 0 [(5.99, 2); (3.99, 1)]%float = 15.97%float.
Proof.
  intros B req s items w1 records w2 Hauth Hcart Hloop. split; [| reflexivity].
  unfold getCartTotal. rewrite Hauth.
  unfold try_catch, getCartTotal_try, bind, axios_get.
  erewrite await_resolved by exact Hcart.
  rewrite (total_loop_lookups Hloop). simpl.
  now rewrite <- app_assoc.
Qed.

(** *** Case analysis of a run *)

Ltac crunch :=
  repeat (simpl;
          match goal with
          | |- context [axios ?k ?c ?w] => destruct (axios k c w) as [[? | ?] ?]
          | |- context [total_loop ?u ?ax ?l ?t ?s] =>
              destruct (total_loop u ax l t s) as [[? | ?] ?]
          | |- context [if ?b then _ else _] => destruct b
          end);
  simpl.

Ltac run_handler :=
  unfold try_catch, addToCart_try, getCart_try, updateCart_try, removeFromCart_try,
    clearCart_try, getCartTotal_try, bind, axios_get, axios_post, axios_put,
    axios_delete, await, send, ret, respond.

(** *** The calls carry no configuration *)

Lemma total_loop_unconfigured items : forall (total : float) (s : State World),
  unconfigured (calls s) ->
  unconfigured (calls (snd (total_loop breweryApiUrl axios items total s))).
Proof.
  induction items as [| item rest IH]; intros total s Hs; simpl.
  - exact Hs.
  - unfold bind, axios_get, await.
    destruct (axios KInventory _ (world s)) as [[record | e] w]; simpl.
    + apply IH. simpl. apply Forall_app. split; [exact Hs | now repeat constructor].
    + apply Forall_app. split; [exact Hs | now repeat constructor].
Qed.

Ltac logged Hs :=
  unfold unconfigured in *; rewrite ?Forall_app;
  repeat split; try exact Hs; now repeat constructor.

(** Whatever the request, a handler adds only calls without configuration
    to the log. *)
Lemma handlers_leave_calls_unconfigured (s : State World) :
  unconfigured (calls s) ->
  (forall req, unconfigured (calls (snd (addToCart breweryApiUrl axios req s))))
  /\ (forall B (req : AuthRequest B), unconfigured (calls (snd (getCart breweryApiUrl axios req s))))
  /\ (forall req, unconfigured (calls (snd (updateCart breweryApiUrl axios req s))))
  /\ (forall B (req : AuthRequest B),
        unconfigured (calls (snd (removeFromCart breweryApiUrl axios req s))))
  /\ (forall B (req : AuthRequest B), unconfigured (calls (snd (clearCart breweryApiUrl axios req s))))
  /\ (forall B (req : AuthRequest B),
        unconfigured (calls (snd (getCartTotal breweryApiUrl axios req s)))).
Proof.
  intros Hs. repeat split.
  - intros req. unfold addToCart. run_handler. crunch; logged Hs.
  - intros B req. unfold getCart. run_handler. crunch; logged Hs.
  - intros req. unfold updateCart. run_handler. crunch; logged Hs.
  - intros B req. unfold removeFromCart. run_handler. crunch; logged Hs.
  - intros B req. unfold clearCart. run_handler. crunch; logged Hs.
  - intros B req. unfold getCartTotal.
    destruct (Js.strict_neq _ _); [exact Hs |].
    unfold try_catch, getCartTotal_try, bind, axios_get, await, send, ret.
    destruct (axios KCart _ (world s)) as [[items | e] w]; simpl.
    + match goal with
      | |- context [total_loop ?u ?ax ?l ?t ?s0] =>
          pose proof (@total_loop_unconfigured l t s0) as Hloop;
          destruct (total_loop u ax l t s0) as [[? | ?] ?]
      end; simpl in *; apply Hloop; logged Hs.
    + logged Hs.
Qed.

(* --------------------------------------------------------------------- *)
(** *** Successful runs of the handlers without a stock check *)
(* --------------------------------------------------------------------- *)

(** X1.  When the actor passes the check of [getCart] and the cart fetch
    resolves, the answer is 200 with the upstream cart as it came, and the
    fetch is the only call issued. *)
Theorem getCart_returns_the_cart :
  forall (B : Type) (req : AuthRequest B) (s : State World) (items : list CartItem) (w : World),
    let fetch := get_call (cart_url breweryApiUrl (param_user_id (params req))) in
    Js.strict_neq (user_id_of req) (Js.Str (param_user_id (params req))) = false ->
    axios KCart fetch (world s) = (Resolved items, w) ->
    getCart breweryApiUrl axios req s
    = ({| status := 200; json := CartBody items |},
       {| world := w; calls := calls s ++ [fetch] |}).
Proof.
  intros B req s items w fetch Hauth Hcart. unfold getCart. rewrite Hauth.
  unfold try_catch, getCart_try, bind, axios_get. fold fetch.
  erewrite await_resolved by exact Hcart. reflexivity.
Qed.

(** X2.  When the actor passes the check of [clearCart] and the delete
    resolves, the answer is 200 [{ message: "Cart cleared successfully" }]
    whatever body the upstream returned, and the delete is the only call
    issued. *)
Theorem clearCart_confirms_whatever_the_body :
  forall (B : Type) (req : AuthRequest B) (s : State World) (d : Json) (w : World),
    let clear := delete_call (cart_clear_url breweryApiUrl (param_user_id (params req))) in
    Js.strict_neq (user_id_of req) (Js.Str (param_user_id (params req))) = false ->
    axios KJson clear (world s) = (Resolved d, w) ->
    clearCart breweryApiUrl axios req s
    = ({| status := 200; json := MessageBody "Cart cleared successfully" |},
       {| world := w; calls := calls s ++ [clear] |}).
Proof.
  intros B req s d w clear Hauth Hdel. unfold clearCart. rewrite Hauth.
  unfold try_catch, clearCart_try, bind, axios_delete. fold clear.
  erewrite await_resolved by exact Hdel. reflexivity.
Qed.

(** X3.  When the fetch of the cart item resolves, the actor passes the
    comparison with the fetched owner and the delete resolves, the answer
    of [removeFromCart] is 200 with the body of the delete, and the calls
    issued are the fetch followed by the delete of the same item. *)
Theorem removeFromCart_returns_the_upstream_body :
  forall (B : Type) (req : AuthRequest B) (s : State World)
         (item : CartItem) (w0 : World) (d : Json) (w : World),
    let fetch := get_call (cart_item_url breweryApiUrl (param_id (params req))) in
    let remove := delete_call (cart_remove_url breweryApiUrl (param_id (params req))) in
    axios KCartItem fetch (world s) = (Resolved item, w0) ->
    Js.strict_neq (user_id_of req) (Js.Str (Js.toString (item_user_id item))) = false ->
    axios KJson remove w0 = (Resolved d, w) ->
    removeFromCart breweryApiUrl axios req s
    = ({| status := 200; json := JsonBody d |},
       {| world := w; calls := calls s ++ [fetch; remove] |}).
Proof.
  intros B req s item w0 d w fetch remove Hitem Hauth Hdel.
  unfold removeFromCart, try_catch, removeFromCart_try, bind, axios_get, axios_delete.
  fold fetch remove.
  erewrite await_resolved by exact Hitem. rewrite Hauth.
  erewrite await_resolved by exact Hdel. simpl. now rewrite <- app_assoc.
Qed.

(* --------------------------------------------------------------------- *)
(** *** Mutations *)
(* --------------------------------------------------------------------- *)

Lemma mutations_after_read (l : list AxiosCall) (u : string) :
  mutations (l ++ [get_call u]) = mutations l.
Proof. unfold mutations. rewrite filter_app. simpl. apply app_nil_r. Qed.

Lemma mutations_after_write (l : list AxiosCall) (c : AxiosCall) :
  mutating c = true -> mutations (l ++ [c]) = (mutations l ++ [c])%list.
Proof. intros H. unfold mutations. rewrite filter_app. simpl. now rewrite H. Qed.

Lemma total_loop_only_reads items : forall (total : float) (s : State World),
  mutations (calls (snd (total_loop breweryApiUrl axios items total s))) = mutations (calls s).
Proof.
  induction items as [| item rest IH]; intros total s; simpl.
  - reflexivity.
  - unfold bind, axios_get, await.
    destruct (axios KInventory _ (world s)) as [[record | e] w]; simpl.
    + rewrite IH. simpl. apply mutations_after_read.
    + apply mutations_after_read.
Qed.

(** X5.  [getCart] and [getCartTotal] only read: whatever the request and
    whatever the upstream answers, the mutations of the log are the same
    after the run as before. *)
Theorem read_handlers_never_mutate :
  forall (B : Type) (req : AuthRequest B) (s : State World),
    mutations (calls (snd (getCart breweryApiUrl axios req s))) = mutations (calls s)
    /\ mutations (calls (snd (getCartTotal breweryApiUrl axios req s))) = mutations (calls s).
Proof.
  intros B req s. split.
  - unfold getCart. run_handler. crunch; try reflexivity; apply mutations_after_read.
  - unfold getCartTotal.
    destruct (Js.strict_neq _ _); [reflexivity |].
    unfold try_catch, getCartTotal_try, bind, axios_get, await, send, ret.
    destruct (axios KCart _ (world s)) as [[items | e] w]; simpl.
    + match goal with
      | |- context [total_loop ?u ?ax ?l ?t ?s0] =>
          pose proof (@total_loop_only_reads l t s0) as Hloop;
          destruct (total_loop u ax l t s0) as [[? | ?] ?]
      end; simpl in *; rewrite Hloop; apply mutations_after_read.
    + apply mutations_after_read.
Qed.

(** X4.  A mutation is issued only for the owner.  If the run of
    [addToCart] or [clearCart] adds a mutation to the log, the actor's id
    is the very string the handler compared it with ([body.user_id] printed,
    the path [user_id]); if the run of [updateCart] or [removeFromCart]
    does, the fetch of the cart item resolved and the actor's id is the
    printed owner of the fetched item. *)
Theorem mutation_only_for_the_owner :
  (forall (req : AuthRequest CartItemRequest) (s : State World),
     mutations (calls (snd (addToCart breweryApiUrl axios req s))) <> mutations (calls s) ->
     user_id_of req = Some (Js.Str (Js.toString (user_id (body req)))))
  /\ (forall (B : Type) (req : AuthRequest B) (s : State World),
     mutations (calls (snd (clearCart breweryApiUrl axios req s))) <> mutations (calls s) ->
     user_id_of req = Some (Js.Str (param_user_id (params req))))
  /\ (forall (req : AuthRequest QuantityUpdate) (s : State World),
     mutations (calls (snd (updateCart breweryApiUrl axios req s))) <> mutations (calls s) ->
     exists (item : CartItem) (w : World),
       axios KCartItem (get_call (cart_item_url breweryApiUrl (param_id (params req))))
         (world s) = (Resolved item, w)
       /\ user_id_of req = Some (Js.Str (Js.toString (item_user_id item))))
  /\ (forall (B : Type) (req : AuthRequest B) (s : State World),
     mutations (calls (snd (removeFromCart breweryApiUrl axios req s))) <> mutations (calls s) ->
     exists (item : CartItem) (w : World),
       axios KCartItem (get_call (cart_item_url breweryApiUrl (param_id (params req))))
         (world s) = (Resolved item, w)
       /\ user_id_of req = Some (Js.Str (Js.toString (item_user_id item)))).
Proof.
  split; [| split; [| split]].
  - intros req s Hmut. apply strict_neq_false.
    destruct (Js.strict_neq _ _) eqn:E; [| reflexivity].
    exfalso. apply Hmut. unfold addToCart. rewrite E.
    now destruct (negb (isEmpty (validationResult req))).
  - intros B req s Hmut. apply strict_neq_false.
    destruct (Js.strict_neq _ _) eqn:E; [| reflexivity].
    exfalso. apply Hmut. unfold clearCart. now rewrite E.
  - intros req s Hmut.
    destruct (validationResult req) as [| err errs] eqn:Hval.
    + destruct (axios KCartItem
                  (get_call (cart_item_url breweryApiUrl (param_id (params req)))) (world s))
        as [[item | e] w] eqn:Hitem.
      * exists item, w. split; [reflexivity |]. apply strict_neq_false.
        destruct (Js.strict_neq _ _) eqn:E; [| reflexivity].
        exfalso. apply Hmut.
        rewrite (updateCart_decides_after_the_fetch req s Hval Hitem E).
        apply mutations_after_read.
      * exfalso. apply Hmut. unfold updateCart. rewrite Hval. simpl.
        unfold try_catch, updateCart_try, bind, axios_get.
        erewrite await_rejected by exact Hitem. apply mutations_after_read.
    + exfalso. apply Hmut. unfold updateCart. now rewrite Hval.
  - intros B req s Hmut.
    destruct (axios KCartItem
                (get_call (cart_item_url breweryApiUrl (param_id (params req)))) (world s))
      as [[item | e] w] eqn:Hitem.
    + exists item, w. split; [reflexivity |]. apply strict_neq_false.
      destruct (Js.strict_neq _ _) eqn:E; [| reflexivity].
      exfalso. apply Hmut.
      rewrite (removeFromCart_decides_after_the_fetch req s Hitem E).
      apply mutations_after_read.
    + exfalso. apply Hmut.
      unfold removeFromCart, try_catch, removeFromCart_try, bind, axios_get.
      erewrite await_rejected by exact Hitem. apply mutations_after_read.
Qed.

Ltac one_more :=
  simpl;
  repeat first [ rewrite mutations_after_read
               | rewrite mutations_after_write by reflexivity ];
  rewrite ?List.length_app; simpl; lia.

(** X6.  No handler issues more than one mutation in a run: whatever the
    request and the upstream, the log gains at most one mutation. *)
Theorem at_most_one_mutation_per_request :
  forall (s : State World),
    (forall req : AuthRequest CartItemRequest,
       List.length (mutations (calls (snd (addToCart breweryApiUrl axios req s))))
       <= List.length (mutations (calls s)) + 1)
    /\ (forall req : AuthRequest QuantityUpdate,
       List.length (mutations (calls (snd (updateCart breweryApiUrl axios req s))))
       <= List.length (mutations (calls s)) + 1)
    /\ (forall (B : Type) (req : AuthRequest B),
       List.length (mutations (calls (snd (removeFromCart breweryApiUrl axios req s))))
       <= List.length (mutations (calls s)) + 1)
    /\ (forall (B : Type) (req : AuthRequest B),
       List.length (mutations (calls (snd (clearCart breweryApiUrl axios req s))))
       <= List.length (mutations (calls s)) + 1).
Proof.
  intros s. repeat split.
  - intros req. unfold addToCart. run_handler. crunch; one_more.
  - intros req. unfold updateCart. run_handler. crunch; one_more.
  - intros B req. unfold removeFromCart. run_handler. crunch; one_more.
  - intros B req. unfold clearCart. run_handler. crunch; one_more.
Qed.

(* --------------------------------------------------------------------- *)
(** *** The total stops at the first failure *)
(* --------------------------------------------------------------------- *)

(** The loop over a cart that starts with items whose lookups resolve
    continues with the rest of the cart, from the running total of those
    items. *)
Lemma total_loop_app (w : World) before records (w' : World) :
  lookups breweryApiUrl axios w before records w' ->
  forall (rest : list CartItem) (total : float) (log : list AxiosCall),
    total_loop breweryApiUrl axios (before ++ rest)%list total {| world := w; calls := log |}
    = total_loop breweryApiUrl axios rest (accumulate total (lines before records))
        {| world := w'; calls := log ++ lookup_calls breweryApiUrl before |}.
Proof.
  induction 1 as [w | w item record w1 tail records w' Hcall Htail IH];
    intros rest total log; simpl.
  - now rewrite app_nil_r.
  - unfold bind, axios_get. erewrite await_resolved by exact Hcall.
    simpl. rewrite IH. now rewrite <- app_assoc.
Qed.

(** X8.  The total stops at the first lookup that fails.  When the cart is
    [before ++ item :: after], the lookups of [before] resolve and the
    lookup of [item] is rejected with [e], [getCartTotal] answers with the
    [catch] response for [e]; it has issued the cart fetch, the lookups of
    [before] and the lookup of [item], and no lookup for [after]. *)
Theorem getCartTotal_stops_at_first_rejection :
  forall (B : Type) (req : AuthRequest B) (s : State World)
         (before : list CartItem) (item : CartItem) (after : list CartItem)
         (w1 : World) (records : list InventoryRecord) (w2 : World)
         (e : AxiosError) (w3 : World),
    let fetch := get_call (cart_url breweryApiUrl (param_user_id (params req))) in
    let failing := get_call (inventory_url breweryApiUrl (item_inventory_id item)) in
    Js.strict_neq (user_id_of req) (Js.Str (param_user_id (params req))) = false ->
    axios KCart fetch (world s) = (Resolved (before ++ item :: after)%list, w1) ->
    lookups breweryApiUrl axios w1 before records w2 ->
    axios KInventory failing w2 = (Rejected e, w3) ->
    getCartTotal breweryApiUrl axios req s
    = (catch_response "Error calculating cart total" e,
       {| world := w3;
          calls := calls s ++ fetch :: lookup_calls breweryApiUrl before ++ [failing] |}).
Proof.
  intros B req s before item after w1 records w2 e w3 fetch failing Hauth Hcart Hbefore Hfail.
  unfold getCartTotal. rewrite Hauth.
  unfold try_catch, getCartTotal_try, bind, axios_get. fold fetch.
  erewrite await_resolved by exact Hcart.
  rewrite (total_loop_app Hbefore).
  erewrite total_loop_rejected by exact Hfail.
  simpl. fold failing. now rewrite <- !app_assoc.
Qed.

(* --------------------------------------------------------------------- *)
(** *** Every answer can be sent *)
(* --------------------------------------------------------------------- *)

Lemma catch_response_is_sound (default : string) (e : AxiosError) :
  default <> "" -> sound_answer (catch_response default e).
Proof.
  intros Hd. split.
  - unfold catch_response, Js.or_status. simpl.
    destruct (response_status e) as [c |]; [| discriminate].
    destruct (Z.eqb_spec c 0); [discriminate | assumption].
  - unfold catch_response, Js.or_default. simpl. intros m detail H.
    injection H as <- _.
    destruct (response_message e) as [t |]; [| assumption].
    destruct (String.eqb_spec t ""); assumption.
Qed.

Lemma literal_answer_is_sound (code : Z) (b : ResBody) :
  code <> 0%Z -> (forall m detail, b <> ErrorEnvelope m detail) ->
  sound_answer {| status := code; json := b |}.
Proof. intros Hc Hb. split; [exact Hc |]. intros m detail H. now elim (Hb m detail). Qed.

Ltac cases_of_run :=
  repeat (cbv beta iota zeta delta [fst snd];
          match goal with
          | |- context [axios ?k ?c ?w] => destruct (axios k c w) as [[? | ?] ?]
          | |- context [total_loop ?u ?ax ?l ?t ?s] =>
              destruct (total_loop u ax l t s) as [[? | ?] ?]
          | |- context [if ?b then _ else _] => destruct b
          end);
  cbv beta iota zeta delta [fst snd].

Ltac sound :=
  first [ apply catch_response_is_sound; discriminate
        | apply literal_answer_is_sound; [discriminate | intros ? ?; discriminate] ].

(** X9.  Whatever the request and whatever the upstream answers or rejects
    with (a failure status of 0, an empty or missing body message), the
    answer of every handler has a status other than 0, and when its body
    is an error envelope the message is not empty. *)
Theorem every_answer_is_sound :
  forall (s : State World),
    (forall req : AuthRequest CartItemRequest,
       sound_answer (fst (addToCart breweryApiUrl axios req s)))
    /\ (forall (B : Type) (req : AuthRequest B),
       sound_answer (fst (getCart breweryApiUrl axios req s)))
    /\ (forall req : AuthRequest QuantityUpdate,
       sound_answer (fst (updateCart breweryApiUrl axios req s)))
    /\ (forall (B : Type) (req : AuthRequest B),
       sound_answer (fst (removeFromCart breweryApiUrl axios req s)))
    /\ (forall (B : Type) (req : AuthRequest B),
       sound_answer (fst (clearCart breweryApiUrl axios req s)))
    /\ (forall (B : Type) (req : AuthRequest B),
       sound_answer (fst (getCartTotal breweryApiUrl axios req s))).
Proof.
  intros s. split; [| split; [| split; [| split; [| split]]]].
  - intros req. unfold addToCart. run_handler. cases_of_run; sound.
  - intros B req. unfold getCart. run_handler. cases_of_run; sound.
  - intros req. unfold updateCart. run_handler. cases_of_run; sound.
  - intros B req. unfold removeFromCart. run_handler. cases_of_run; sound.
  - intros B req. unfold clearCart. run_handler. cases_of_run; sound.
  - intros B req. unfold getCartTotal. run_handler. cases_of_run; sound.
Qed.

(* --------------------------------------------------------------------- *)
(** *** The boundary of the stock check *)
(* --------------------------------------------------------------------- *)

(** No JavaScript number is less than itself. *)
Lemma ltb_irrefl (x : float) : (x <? x)%float = false.
Proof.
  rewrite ltb_spec. unfold SFltb, SFcompare.
  destruct (Prim2SF x) as [sg | sg | | sg m e]; try destruct sg; try reflexivity;
    now rewrite Z.compare_refl, Pos.compare_cont_refl.
Qed.

(** X10.  Asking for exactly what is in stock is accepted: when the stock
    read from the inventory equals the requested quantity, [addToCart] and
    [updateCart] issue the mutation, and answer with its body when it
    resolves. *)
Theorem exact_stock_is_sufficient :
  (forall (req : AuthRequest CartItemRequest) (s : State World) record w,
     let lookup := get_call (inventory_url breweryApiUrl (inventory_id (body req))) in
     let add := post_call (cart_add_url breweryApiUrl) (body req) in
     validationResult req = [] ->
     Js.strict_neq (user_id_of req) (Js.Str (Js.toString (user_id (body req)))) = false ->
     axios KInventory lookup (world s) = (Resolved record, w) ->
     stockQuantity record = quantity (body req) ->
     issued s (snd (addToCart breweryApiUrl axios req s)) [lookup; add]
     /\ forall d w',
          axios KJson add w = (Resolved d, w') ->
          fst (addToCart breweryApiUrl axios req s) = {| status := 201; json := JsonBody d |})
  /\
  (forall (req : AuthRequest QuantityUpdate) (s : State World) item w0 record w,
     let fetch := get_call (cart_item_url breweryApiUrl (param_id (params req))) in
     let lookup := get_call (inventory_url breweryApiUrl (item_inventory_id item)) in
     let update := put_call (cart_update_url breweryApiUrl (param_id (params req))) (body req) in
     validationResult req = [] ->
     axios KCartItem fetch (world s) = (Resolved item, w0) ->
     Js.strict_neq (user_id_of req) (Js.Str (Js.toString (item_user_id item))) = false ->
     axios KInventory lookup w0 = (Resolved record, w) ->
     stockQuantity record = new_quantity (body req) ->
     issued s (snd (updateCart breweryApiUrl axios req s)) [fetch; lookup; update]
     /\ forall d w',
          axios KJson update w = (Resolved d, w') ->
          fst (updateCart breweryApiUrl axios req s) = {| status := 200; json := JsonBody d |}).
Proof.
  split.
  - intros req s record w lookup add Hval Hauth Hinv Heq.
    destruct (addToCart_stock_check req s Hval Hauth Hinv) as [_ Henough].
    destruct Henough as (Hcalls & _ & _ & Hbody).
    { rewrite Heq. apply ltb_irrefl. }
    split; [exact Hcalls |]. intros d w' Hadd. now rewrite (Hbody d w' Hadd).
  - intros req s item w0 record w fetch lookup update Hval Hitem Hauth Hinv Heq.
    destruct (updateCart_stock_check req s Hval Hitem Hauth Hinv) as [_ Henough].
    destruct Henough as (Hcalls & _ & _ & Hbody).
    { rewrite Heq. apply ltb_irrefl. }
    split; [exact Hcalls |]. intros d w' Hput. now rewrite (Hbody d w' Hput).
Qed.

(* --------------------------------------------------------------------- *)
(** *** Owners are kept apart *)
(* --------------------------------------------------------------------- *)

(** Printing loses nothing on the integers a JavaScript number holds
    exactly: two of them with the same printed form are the same. *)
Lemma toString_number_injective (n m : Z) :
  Js.safe_integer n -> Js.safe_integer m ->
  Js.toString (Js.Num n) = Js.toString (Js.Num m) -> n = m.
Proof.
  simpl. intros _ _ H.
  assert (Hread : forall z : Z,
             NilZero.int_of_string (NilZero.string_of_int (Z.to_int z)) = Some (Z.to_int z)).
  { intros z. apply NilZero.isi; destruct z as [| p | p]; simpl; intros E;
      try discriminate E; injection E as E; exact (Unsigned.to_uint_nonnil p E). }
  apply DecimalZ.to_int_inj.
  pose proof (Hread n) as Hn. rewrite H, Hread in Hn. now injection Hn as ->.
Qed.

Lemma other_owner_never_matches (o : option Js.value) (n m : Z) :
  Js.safe_integer n -> Js.safe_integer m ->
  Js.strict_neq o (Js.Str (Js.toString (Js.Num n))) = false ->
  n <> m ->
  Js.strict_neq o (Js.Str (Js.toString (Js.Num m))) = true.
Proof.
  intros Sn Sm Hn Hnm. apply strict_neq_false in Hn. subst o.
  unfold Js.strict_neq, Js.strict_eq.
  destruct (String.eqb_spec (Js.toString (Js.Num n)) (Js.toString (Js.Num m))) as [E | E].
  - elim Hnm. exact (toString_number_injective Sn Sm E).
  - reflexivity.
Qed.

(** X11.  Owners whose ids are safe integers are kept apart: an actor who
    passes the comparison for the items of owner [n] cannot remove or
    update an item that belongs to another owner [m]; the answer is 403
    [{ message: "Unauthorized" }] right after the fetch of the item.  Both
    ids are integers that a JavaScript number holds exactly, so the owner
    the handler reads is the owner the upstream sent. *)
Theorem foreign_items_are_refused :
  (forall (B : Type) (req : AuthRequest B) (s : State World) (item : CartItem) (w : World)
          (n m : Z),
     let fetch := get_call (cart_item_url breweryApiUrl (param_id (params req))) in
     Js.safe_integer n ->
     Js.safe_integer m ->
     Js.strict_neq (user_id_of req) (Js.Str (Js.toString (Js.Num n))) = false ->
     item_user_id item = Js.Num m ->
     n <> m ->
     axios KCartItem fetch (world s) = (Resolved item, w) ->
     removeFromCart breweryApiUrl axios req s
     = ({| status := 403; json := MessageBody "Unauthorized" |},
        {| world := w; calls := calls s ++ [fetch] |}))
  /\
  (forall (req : AuthRequest QuantityUpdate) (s : State World) (item : CartItem) (w : World)
          (n m : Z),
     let fetch := get_call (cart_item_url breweryApiUrl (param_id (params req))) in
     validationResult req = [] ->
     Js.safe_integer n ->
     Js.safe_integer m ->
     Js.strict_neq (user_id_of req) (Js.Str (Js.toString (Js.Num n))) = false ->
     item_user_id item = Js.Num m ->
     n <> m ->
     axios KCartItem fetch (world s) = (Resolved item, w) ->
     updateCart breweryApiUrl axios req s
     = ({| status := 403; json := MessageBody "Unauthorized" |},
        {| world := w; calls := calls s ++ [fetch] |})).
Proof.
  split.
  - intros B req s item w n m fetch Sn Sm Hn Hm Hnm Hitem.
    apply (removeFromCart_decides_after_the_fetch req s Hitem).
    rewrite Hm. exact (other_owner_never_matches _ Sn Sm Hn Hnm).
  - intros req s item w n m fetch Hval Sn Sm Hn Hm Hnm Hitem.
    apply (updateCart_decides_after_the_fetch req s Hval Hitem).
    rewrite Hm. exact (other_owner_never_matches _ Sn Sm Hn Hnm).
Qed.

Lemma total_loop_extends items : forall (total : float) (s : State World),
  exists l : list AxiosCall,
    calls (snd (total_loop breweryApiUrl axios items total s)) = (calls s ++ l)%list.
Proof.
  induction items as [| item rest IH]; intros total s; simpl.
  - exists []. now rewrite app_nil_r.
  - unfold bind, axios_get, await.
    destruct (axios KInventory _ (world s)) as [[record | e] w]; simpl.
    + match goal with
      | |- context [total_loop _ _ rest ?t ?s0] => destruct (IH t s0) as [l Hl]
      end.
      rewrite Hl. simpl. eexists. now rewrite <- app_assoc.
    + eexists. reflexivity.
Qed.

(** X12.  The path handlers touch only the actor's own cart.  When the
    actor passes the check, the address of the one call of [getCart], of
    the one call of [clearCart] and of the first call of [getCartTotal]
    is built from the actor's own id, whatever the upstream answers. *)
Theorem path_handlers_touch_only_the_actors_cart :
  forall (B : Type) (req : AuthRequest B) (s : State World),
    Js.strict_neq (user_id_of req) (Js.Str (param_user_id (params req))) = false ->
    exists a : Actor,
      user req = Some a
      /\ issued s (snd (getCart breweryApiUrl axios req s))
           [get_call (cart_url breweryApiUrl (Js.toString (id a)))]
      /\ issued s (snd (clearCart breweryApiUrl axios req s))
           [delete_call (cart_clear_url breweryApiUrl (Js.toString (id a)))]
      /\ exists rest : list AxiosCall,
           issued s (snd (getCartTotal breweryApiUrl axios req s))
             (get_call (cart_url breweryApiUrl (Js.toString (id a))) :: rest).
Proof.
  intros B req s Hauth.
  pose proof (proj1 (strict_neq_false _ _) Hauth) as Hid.
  unfold user_id_of in Hid. destruct (user req) as [a |] eqn:Huser; [| discriminate].
  simpl in Hid. injection Hid as Hid.
  exists a. split; [reflexivity |]. rewrite Hid. simpl Js.toString.
  unfold issued. repeat split.
  - unfold getCart. rewrite Hauth. run_handler. crunch; reflexivity.
  - unfold clearCart. rewrite Hauth. run_handler. crunch; reflexivity.
  - unfold getCartTotal. rewrite Hauth.
    unfold try_catch, getCartTotal_try, bind, axios_get, await, send, ret.
    destruct (axios KCart _ (world s)) as [[items | e] w]; simpl.
    + match goal with
      | |- context [total_loop ?u ?ax ?l ?t ?s0] =>
          destruct (@total_loop_extends l t s0) as [rest Hrest];
          destruct (total_loop u ax l t s0) as [[? | ?] ?]
      end; simpl in *; exists rest; rewrite Hrest; now rewrite <- app_assoc.
    + exists []. reflexivity.
Qed.

(* --------------------------------------------------------------------- *)
(** *** Every call goes to the brewery API *)
(* --------------------------------------------------------------------- *)

Lemma prefix_app (a b : string) : String.prefix a (a ++ b) = true.
Proof.
  induction a as [| c a IH]; simpl.
  - now destruct b.
  - destruct (Ascii.ascii_dec c c) as [_ | Hc]; [exact IH | now elim Hc].
Qed.

Lemma total_loop_targets_api items : forall (total : float) (s : State World),
  Forall (targets_api breweryApiUrl) (calls s) ->
  Forall (targets_api breweryApiUrl)
    (calls (snd (total_loop breweryApiUrl axios items total s))).
Proof.
  induction items as [| item rest IH]; intros total s Hs; simpl.
  - exact Hs.
  - unfold bind, axios_get, await.
    destruct (axios KInventory _ (world s)) as [[record | e] w]; simpl.
    + apply IH. simpl. apply Forall_app. split; [exact Hs |].
      constructor; [apply prefix_app | constructor].
    + apply Forall_app. split; [exact Hs |].
      constructor; [apply prefix_app | constructor].
Qed.

Ltac to_api Hs :=
  cbn [calls world]; rewrite ?Forall_app; repeat split; try exact Hs;
  repeat (constructor; try apply prefix_app).

(** X13.  No handler calls anything but the brewery API: if the address of
    every call of the log starts with [breweryApiUrl] before a run, it does
    so after the run, whatever the request and the upstream. *)
Theorem every_call_targets_the_api :
  forall (s : State World),
    Forall (targets_api breweryApiUrl) (calls s) ->
    (forall req, Forall (targets_api breweryApiUrl)
                   (calls (snd (addToCart breweryApiUrl axios req s))))
    /\ (forall (B : Type) (req : AuthRequest B),
          Forall (targets_api breweryApiUrl) (calls (snd (getCart breweryApiUrl axios req s))))
    /\ (forall req, Forall (targets_api breweryApiUrl)
                      (calls (snd (updateCart breweryApiUrl axios req s))))
    /\ (forall (B : Type) (req : AuthRequest B),
          Forall (targets_api breweryApiUrl)
            (calls (snd (removeFromCart breweryApiUrl axios req s))))
    /\ (forall (B : Type) (req : AuthRequest B),
          Forall (targets_api breweryApiUrl) (calls (snd (clearCart breweryApiUrl axios req s))))
    /\ (forall (B : Type) (req : AuthRequest B),
          Forall (targets_api breweryApiUrl)
            (calls (snd (getCartTotal breweryApiUrl axios req s)))).
Proof.
  intros s Hs. split; [| split; [| split; [| split; [| split]]]].
  - intros req. unfold addToCart. run_handler. cases_of_run; to_api Hs.
  - intros B req. unfold getCart. run_handler. cases_of_run; to_api Hs.
  - intros req. unfold updateCart. run_handler. cases_of_run; to_api Hs.
  - intros B req. unfold removeFromCart. run_handler. cases_of_run; to_api Hs.
  - intros B req. unfold clearCart. run_handler. cases_of_run; to_api Hs.
  - intros B req. unfold getCartTotal.
    destruct (Js.strict_neq _ _); [exact Hs |].
    unfold try_catch, getCartTotal_try, bind, axios_get, await, send, ret.
    destruct (axios KCart _ (world s)) as [[items | e] w]; simpl.
    + match goal with
      | |- context [total_loop ?u ?ax ?l ?t ?s0] =>
          pose proof (@total_loop_targets_api l t s0) as Hloop;
          destruct (total_loop u ax l t s0) as [[? | ?] ?]
      end; simpl in *; apply Hloop; to_api Hs.
    + to_api Hs.
Qed.

(* --------------------------------------------------------------------- *)
(** *** Falsy fields of a failure *)
(* --------------------------------------------------------------------- *)

(** X14.  The [catch] blocks use [||], so a field of the failure that is
    present but falsy is treated as absent, in every handler: a response
    status of 0 gives 500, an empty body message gives the handler's
    default message, and a falsy [errors] detail (the empty string, [null],
    [false], [0]) gives the failure's own description. *)
Theorem falsy_failure_fields_fall_back :
  forall (default : string) (e : AxiosError) (r : ErrorResponse),
    error_response e = Some r ->
    (error_status r = 0%Z -> status (catch_response default e) = 500%Z)
    /\ (forall d, error_data r = Some d -> data_message d = Some "" ->
        exists detail, json (catch_response default e) = ErrorEnvelope default detail)
    /\ (forall d x, error_data r = Some d -> data_errors d = Some x -> json_truthy x = false ->
        exists m, json (catch_response default e)
                  = ErrorEnvelope m (option_map JString (error_message e))).
Proof.
  intros default e r Hr.
  unfold catch_response, response_status, response_message, response_errors, response_data.
  rewrite Hr. simpl. repeat split.
  - intros H. now rewrite H.
  - intros d Hd Hm. rewrite Hd, Hm. simpl. eexists. reflexivity.
  - intros d x Hd He Hx. rewrite Hd, He. simpl. rewrite Hx. eexists. reflexivity.
Qed.

(* --------------------------------------------------------------------- *)
(** *** Runs that meet a rejected call *)
(* --------------------------------------------------------------------- *)

(** At every call site of every handler: when the call is rejected with
    [e], the handler answers with its [catch] response for [e] and stops in
    the state right after the rejected call. *)

Lemma addToCart_rejected_run (req : AuthRequest CartItemRequest) (s s' : State World) e :
  addToCart_rejected breweryApiUrl axios req s e s' ->
  addToCart breweryApiUrl axios req s = (catch_response "Error adding to cart" e, s').
Proof.
  intros [w Hval Hauth Hcall | record w1 w Hval Hauth Hlookup Hstock Hcall];
    unfold addToCart; rewrite Hval, Hauth; simpl;
    unfold try_catch, addToCart_try, bind, axios_get, axios_post.
  - erewrite await_rejected by exact Hcall. reflexivity.
  - erewrite await_resolved by exact Hlookup. rewrite Hstock.
    erewrite await_rejected by exact Hcall. simpl. now rewrite <- app_assoc.
Qed.

Lemma getCart_rejected_run (B : Type) (req : AuthRequest B) (s s' : State World) e :
  getCart_rejected breweryApiUrl axios req s e s' ->
  getCart breweryApiUrl axios req s = (catch_response "Error getting cart" e, s').
Proof.
  intros [w Hauth Hcall]. unfold getCart. rewrite Hauth.
  unfold try_catch, getCart_try, bind, axios_get.
  erewrite await_rejected by exact Hcall. reflexivity.
Qed.

Lemma updateCart_rejected_run (req : AuthRequest QuantityUpdate) (s s' : State World) e :
  updateCart_rejected breweryApiUrl axios req s e s' ->
  updateCart breweryApiUrl axios req s = (catch_response "Error updating cart" e, s').
Proof.
  intros [w Hval Hcall
         | item w0 w Hval Hitem Hauth Hcall
         | item w0 record w1 w Hval Hitem Hauth Hlookup Hstock Hcall];
    unfold updateCart; rewrite Hval; simpl;
    unfold try_catch, updateCart_try, bind, axios_get, axios_put.
  - erewrite await_rejected by exact Hcall. reflexivity.
  - erewrite await_resolved by exact Hitem. rewrite Hauth.
    erewrite await_rejected by exact Hcall. simpl. now rewrite <- app_assoc.
  - erewrite await_resolved by exact Hitem. rewrite Hauth.
    erewrite await_resolved by exact Hlookup. rewrite Hstock.
    erewrite await_rejected by exact Hcall. simpl. now rewrite <- !app_assoc.
Qed.

Lemma removeFromCart_rejected_run (B : Type) (req : AuthRequest B) (s s' : State World) e :
  removeFromCart_rejected breweryApiUrl axios req s e s' ->
  removeFromCart breweryApiUrl axios req s = (catch_response "Error removing from cart" e, s').
Proof.
  intros [w Hcall | item w0 w Hitem Hauth Hcall];
    unfold removeFromCart, try_catch, removeFromCart_try, bind, axios_get, axios_delete.
  - erewrite await_rejected by exact Hcall. reflexivity.
  - erewrite await_resolved by exact Hitem. rewrite Hauth.
    erewrite await_rejected by exact Hcall. simpl. now rewrite <- app_assoc.
Qed.

Lemma clearCart_rejected_run (B : Type) (req : AuthRequest B) (s s' : State World) e :
  clearCart_rejected breweryApiUrl axios req s e s' ->
  clearCart breweryApiUrl axios req s = (catch_response "Error clearing cart" e, s').
Proof.
  intros [w Hauth Hcall]. unfold clearCart. rewrite Hauth.
  unfold try_catch, clearCart_try, bind, axios_delete.
  erewrite await_rejected by exact Hcall. reflexivity.
Qed.

Lemma getCartTotal_rejected_run (B : Type) (req : AuthRequest B) (s s' : State World) e :
  getCartTotal_rejected breweryApiUrl axios req s e s' ->
  getCartTotal breweryApiUrl axios req s
  = (catch_response "Error calculating cart total" e, s').
Proof.
  intros [w Hauth Hcall | before item after w1 records w2 w Hauth Hcart Hbefore Hcall];
    unfold getCartTotal; rewrite Hauth;
    unfold try_catch, getCartTotal_try, bind, axios_get.
  - erewrite await_rejected by exact Hcall. reflexivity.
  - erewrite await_resolved by exact Hcart.
    rewrite (total_loop_app Hbefore).
    erewrite total_loop_rejected by exact Hcall.
    simpl. now rewrite <- !app_assoc.
Qed.

(** The two shapes of the [catch] response. *)
Lemma catch_response_with_response (default : string) (e : AxiosError) r d m :
  error_response e = Some r ->
  error_status r <> 0%Z ->
  error_data r = Some d ->
  data_message d = Some m ->
  m <> "" ->
  exists detail : option Json,
    catch_response default e = {| status := error_status r; json := ErrorEnvelope m detail |}
    /\ (forall x, data_errors d = Some x -> json_truthy x = true -> detail = Some x)
    /\ (forall x, data_errors d = Some x -> json_truthy x = false ->
        detail = option_map JString (error_message e))
    /\ (data_errors d = None -> detail = option_map JString (error_message e)).
Proof.
  intros Hr Hs Hd Hm Hne.
  exists (detail_or (data_errors d) (error_message e)).
  unfold catch_response, response_status, response_message, response_errors, response_data.
  rewrite Hr. simpl. rewrite Hd, Hm. simpl.
  apply Z.eqb_neq in Hs. rewrite Hs.
  apply String.eqb_neq in Hne. rewrite Hne.
  split; [reflexivity |]. unfold detail_or. split; [| split].
  - intros x Hx Ht. now rewrite Hx, Ht.
  - intros x Hx Hf. now rewrite Hx, Hf.
  - intros Hx. now rewrite Hx.
Qed.

Lemma catch_response_without_response (default : string) (e : AxiosError) :
  error_response e = None ->
  catch_response default e
  = {| status := 500;
       json := ErrorEnvelope default (option_map JString (error_message e)) |}.
Proof.
  intros Hr.
  unfold catch_response, response_status, response_message, response_errors, response_data.
  now rewrite Hr.
Qed.

(** C6 (as amended).  In every handler, when a call of the run is rejected
    by the upstream with [e] (at any call site: the checks before it
    passed and the calls before it resolved), the answer is the [catch]
    response for [e] with the handler's own default message.  When [e]
    carries a response with a non-zero status and a non-empty body
    message, that answer has the same status and the same message, and
    its [error] field is the body's [errors] detail when the body has a
    truthy one (a string, an array, an object, ...) and the failure's own
    description ([error.message]) when the body has none or a falsy one.
    When [e] carries no response, the answer is 500 with the default
    message and the failure's description as [error]. *)
Theorem upstream_failure_is_normalised :
  forall e : AxiosError,
    ((forall (req : AuthRequest CartItemRequest) (s s' : State World),
        addToCart_rejected breweryApiUrl axios req s e s' ->
        fst (addToCart breweryApiUrl axios req s) = catch_response "Error adding to cart" e)
     /\ (forall (B : Type) (req : AuthRequest B) (s s' : State World),
        getCart_rejected breweryApiUrl axios req s e s' ->
        fst (getCart breweryApiUrl axios req s) = catch_response "Error getting cart" e)
     /\ (forall (req : AuthRequest QuantityUpdate) (s s' : State World),
        updateCart_rejected breweryApiUrl axios req s e s' ->
        fst (updateCart breweryApiUrl axios req s) = catch_response "Error updating cart" e)
     /\ (forall (B : Type) (req : AuthRequest B) (s s' : State World),
        removeFromCart_rejected breweryApiUrl axios req s e s' ->
        fst (removeFromCart breweryApiUrl axios req s)
        = catch_response "Error removing from cart" e)
     /\ (forall (B : Type) (req : AuthRequest B) (s s' : State World),
        clearCart_rejected breweryApiUrl axios req s e s' ->
        fst (clearCart breweryApiUrl axios req s) = catch_response "Error clearing cart" e)
     /\ (forall (B : Type) (req : AuthRequest B) (s s' : State World),
        getCartTotal_rejected breweryApiUrl axios req s e s' ->
        fst (getCartTotal breweryApiUrl axios req s)
        = catch_response "Error calculating cart total" e))
    /\ (forall (default : string) r d m,
        error_response e = Some r ->
        error_status r <> 0%Z ->
        error_data r = Some d ->
        data_message d = Some m ->
        m <> "" ->
        exists detail : option Json,
          catch_response default e
          = {| status := error_status r; json := ErrorEnvelope m detail |}
          /\ (forall x, data_errors d = Some x -> json_truthy x = true -> detail = Some x)
          /\ (forall x, data_errors d = Some x -> json_truthy x = false ->
              detail = option_map JString (error_message e))
          /\ (data_errors d = None -> detail = option_map JString (error_message e)))
    /\ (forall default : string,
        error_response e = None ->
        catch_response default e
        = {| status := 500;
             json := ErrorEnvelope default (option_map JString (error_message e)) |}).
Proof.
  intros e. split; [| split].
  - repeat split.
    + intros req s s' H. now rewrite (addToCart_rejected_run H).
    + intros B req s s' H. now rewrite (getCart_rejected_run H).
    + intros req s s' H. now rewrite (updateCart_rejected_run H).
    + intros B req s s' H. now rewrite (removeFromCart_rejected_run H).
    + intros B req s s' H. now rewrite (clearCart_rejected_run H).
    + intros B req s s' H. now rewrite (getCartTotal_rejected_run H).
  - intros default r d m. apply catch_response_with_response.
  - intros default. apply catch_response_without_response.
Qed.

(** X7.  No retry and no further call after a rejection: in every handler,
    when a call of the run is rejected, the run ends in the state right
    after that call.  The log is the log before the run followed by the
    calls up to the rejected one and nothing else, and the upstream is as
    the rejected call left it. *)
Theorem run_stops_at_the_rejected_call :
  forall e : AxiosError,
    (forall (req : AuthRequest CartItemRequest) (s s' : State World),
       addToCart_rejected breweryApiUrl axios req s e s' ->
       snd (addToCart breweryApiUrl axios req s) = s')
    /\ (forall (B : Type) (req : AuthRequest B) (s s' : State World),
       getCart_rejected breweryApiUrl axios req s e s' ->
       snd (getCart breweryApiUrl axios req s) = s')
    /\ (forall (req : AuthRequest QuantityUpdate) (s s' : State World),
       updateCart_rejected breweryApiUrl axios req s e s' ->
       snd (updateCart breweryApiUrl axios req s) = s')
    /\ (forall (B : Type) (req : AuthRequest B) (s s' : State World),
       removeFromCart_rejected breweryApiUrl axios req s e s' ->
       snd (removeFromCart breweryApiUrl axios req s) = s')
    /\ (forall (B : Type) (req : AuthRequest B) (s s' : State World),
       clearCart_rejected breweryApiUrl axios req s e s' ->
       snd (clearCart breweryApiUrl axios req s) = s')
    /\ (forall (B : Type) (req : AuthRequest B) (s s' : State World),
       getCartTotal_rejected breweryApiUrl axios req s e s' ->
       snd (getCartTotal breweryApiUrl axios req s) = s').
Proof.
  intros e. repeat split.
  - intros req s s' H. now rewrite (addToCart_rejected_run H).
  - intros B req s s' H. now rewrite (getCart_rejected_run H).
  - intros req s s' H. now rewrite (updateCart_rejected_run H).
  - intros B req s s' H. now rewrite (removeFromCart_rejected_run H).
  - intros B req s s' H. now rewrite (clearCart_rejected_run H).
  - intros B req s s' H. now rewrite (getCartTotal_rejected_run H).
Qed.

(** C8 (as amended).  On every authorization-failure path (the identity
    comparison fails: after validation for an add, at once for the path
    handlers, after the fetch of the item for an update or a remove), on
    every insufficient-stock path and on every upstream-failure path (a
    call of the run is rejected) of every handler, the body of the answer
    has a [message] field.  On a validation failure the body is
    [{ errors }] and has no [message] field. *)
Theorem failures_carry_a_message :
  ((forall (req : AuthRequest CartItemRequest) (s : State World),
      validationResult req = [] ->
      Js.strict_neq (user_id_of req) (Js.Str (Js.toString (user_id (body req)))) = true ->
      has_message (json (fst (addToCart breweryApiUrl axios req s))) = true)
   /\ (forall (B : Type) (req : AuthRequest B) (s : State World),
      Js.strict_neq (user_id_of req) (Js.Str (param_user_id (params req))) = true ->
      has_message (json (fst (getCart breweryApiUrl axios req s))) = true
      /\ has_message (json (fst (clearCart breweryApiUrl axios req s))) = true
      /\ has_message (json (fst (getCartTotal breweryApiUrl axios req s))) = true)
   /\ (forall (req : AuthRequest QuantityUpdate) (s : State World) item w,
      validationResult req = [] ->
      axios KCartItem (get_call (cart_item_url breweryApiUrl (param_id (params req))))
        (world s) = (Resolved item, w) ->
      Js.strict_neq (user_id_of req) (Js.Str (Js.toString (item_user_id item))) = true ->
      has_message (json (fst (updateCart breweryApiUrl axios req s))) = true)
   /\ (forall (B : Type) (req : AuthRequest B) (s : State World) item w,
      axios KCartItem (get_call (cart_item_url breweryApiUrl (param_id (params req))))
        (world s) = (Resolved item, w) ->
      Js.strict_neq (user_id_of req) (Js.Str (Js.toString (item_user_id item))) = true ->
      has_message (json (fst (removeFromCart breweryApiUrl axios req s))) = true))
  /\
  ((forall (req : AuthRequest CartItemRequest) (s : State World) record w,
      validationResult req = [] ->
      Js.strict_neq (user_id_of req) (Js.Str (Js.toString (user_id (body req)))) = false ->
      axios KInventory (get_call (inventory_url breweryApiUrl (inventory_id (body req))))
        (world s) = (Resolved record, w) ->
      (stockQuantity record <? quantity (body req))%float = true ->
      has_message (json (fst (addToCart breweryApiUrl axios req s))) = true)
   /\ (forall (req : AuthRequest QuantityUpdate) (s : State World) item w0 record w,
      validationResult req = [] ->
      axios KCartItem (get_call (cart_item_url breweryApiUrl (param_id (params req))))
        (world s) = (Resolved item, w0) ->
      Js.strict_neq (user_id_of req) (Js.Str (Js.toString (item_user_id item))) = false ->
      axios KInventory (get_call (inventory_url breweryApiUrl (item_inventory_id item))) w0
        = (Resolved record, w) ->
      (stockQuantity record <? new_quantity (body req))%float = true ->
      has_message (json (fst (updateCart breweryApiUrl axios req s))) = true))
  /\
  (forall e : AxiosError,
     (forall (req : AuthRequest CartItemRequest) (s s' : State World),
        addToCart_rejected breweryApiUrl axios req s e s' ->
        has_message (json (fst (addToCart breweryApiUrl axios req s))) = true)
     /\ (forall (B : Type) (req : AuthRequest B) (s s' : State World),
        getCart_rejected breweryApiUrl axios req s e s' ->
        has_message (json (fst (getCart breweryApiUrl axios req s))) = true)
     /\ (forall (req : AuthRequest QuantityUpdate) (s s' : State World),
        updateCart_rejected breweryApiUrl axios req s e s' ->
        has_message (json (fst (updateCart breweryApiUrl axios req s))) = true)
     /\ (forall (B : Type) (req : AuthRequest B) (s s' : State World),
        removeFromCart_rejected breweryApiUrl axios req s e s' ->
        has_message (json (fst (removeFromCart breweryApiUrl axios req s))) = true)
     /\ (forall (B : Type) (req : AuthRequest B) (s s' : State World),
        clearCart_rejected breweryApiUrl axios req s e s' ->
        has_message (json (fst (clearCart breweryApiUrl axios req s))) = true)
     /\ (forall (B : Type) (req : AuthRequest B) (s s' : State World),
        getCartTotal_rejected breweryApiUrl axios req s e s' ->
        has_message (json (fst (getCartTotal breweryApiUrl axios req s))) = true))
  /\
  ((forall (req : AuthRequest CartItemRequest) (s : State World),
      validationResult req <> [] ->
      json (fst (addToCart breweryApiUrl axios req s)) = ErrorsBody (validationResult req)
      /\ has_message (json (fst (addToCart breweryApiUrl axios req s))) = false)
   /\ (forall (req : AuthRequest QuantityUpdate) (s : State World),
      validationResult req <> [] ->
      json (fst (updateCart breweryApiUrl axios req s)) = ErrorsBody (validationResult req)
      /\ has_message (json (fst (updateCart breweryApiUrl axios req s))) = false)).
Proof.
  split; [| split; [| split]].
  - split; [| split; [| split]].
    + intros req s Hval Hauth. unfold addToCart. now rewrite Hval, Hauth.
    + intros B req s Hauth. unfold getCart, clearCart, getCartTotal.
      rewrite Hauth. now repeat split.
    + intros req s item w Hval Hitem Hauth.
      now rewrite (updateCart_decides_after_the_fetch req s Hval Hitem Hauth).
    + intros B req s item w Hitem Hauth.
      now rewrite (removeFromCart_decides_after_the_fetch req s Hitem Hauth).
  - split.
    + intros req s record w Hval Hauth Hlookup Hshort.
      destruct (addToCart_stock_check req s Hval Hauth Hlookup) as [Hstop _].
      destruct (Hstop Hshort) as [Hanswer _]. now rewrite Hanswer.
    + intros req s item w0 record w Hval Hitem Hauth Hlookup Hshort.
      destruct (updateCart_stock_check req s Hval Hitem Hauth Hlookup) as [Hstop _].
      destruct (Hstop Hshort) as [Hanswer _]. now rewrite Hanswer.
  - intros e. repeat split.
    + intros req s s' H. now rewrite (addToCart_rejected_run H).
    + intros B req s s' H. now rewrite (getCart_rejected_run H).
    + intros req s s' H. now rewrite (updateCart_rejected_run H).
    + intros B req s s' H. now rewrite (removeFromCart_rejected_run H).
    + intros B req s s' H. now rewrite (clearCart_rejected_run H).
    + intros B req s s' H. now rewrite (getCartTotal_rejected_run H).
  - split.
    + intros req s Hval. unfold addToCart.
      destruct (validationResult req); [contradiction |]. now split.
    + intros req s Hval. unfold updateCart.
      destruct (validationResult req); [contradiction |]. now split.
Qed.

End Properties.

(* ===================================================================== *)
(** ** The handlers on concrete requests *)
(* ===================================================================== *)

Module Runs.

Import Scenario.

(** C3 (defect of the code).  The claim lets an update or remove request
    through when the actor's id and the fetched item's [user_id], both
    converted to strings, are equal.  For the actor of the test-suite (id
    the number 1) and a fetched item owned by user 1 the two strings are
    equal, yet [updateCart] and [removeFromCart] answer 403
    [{ message: "Unauthorized" }] after the single fetch of the cart item:
    the check [req.user?.id !== cartItemResponse.data.user_id.toString()]
    converts only the owner. *)
Theorem item_handlers_refuse_numeric_actor :
  let fetched := item 1 1 2 in
  let rest := [Mock.resolves KInventory (stock 10 1); Mock.resolves KJson created] in
  let upstream := Mock.start (Mock.resolves KCartItem fetched :: rest) in
  let after := {| world := rest;
                  calls := [get_call "http://localhost:5089/api/cart/item/1"] |} in
  Js.toString (id numeric_actor) = Js.toString (item_user_id fetched)
  /\ updateCart Mock.apiUrl Mock.axios tester_update upstream = (refused, after)
  /\ removeFromCart Mock.apiUrl Mock.axios tester_item upstream = (refused, after).
Proof. repeat split. Qed.

(** C9 (defect of the code).  The claim has every upstream call forward the
    caller's [Authorization] header.  The requests below carry the header
    ["Bearer mock-token"]; the calls that [removeFromCart] issues for them
    (the fetch of the item, and for the owner the delete as well) are made
    without a configuration argument, so no header is sent with them. *)
Theorem removeFromCart_forwards_no_token :
  let upstream := Mock.start [Mock.resolves KCartItem (item 1 1 2); Mock.resolves KJson created] in
  authorization (headers tester_item) = Some "Bearer mock-token"
  /\ authorization (headers owner_item) = Some "Bearer mock-token"
  /\ calls (snd (removeFromCart Mock.apiUrl Mock.axios tester_item upstream))
     = [ {| method := GET; url := "http://localhost:5089/api/cart/item/1";
            payload := NoPayload; config := None |} ]
  /\ calls (snd (removeFromCart Mock.apiUrl Mock.axios owner_item upstream))
     = [ {| method := GET; url := "http://localhost:5089/api/cart/item/1";
            payload := NoPayload; config := None |};
         {| method := DELETE; url := "http://localhost:5089/api/cart/remove/1";
            payload := NoPayload; config := None |} ].
Proof. repeat split. Qed.

(** C5, counterexample.  Two carts with the same three items in different
    order, against the same price list: the totals differ, so the total is
    not independent of the order of the items (and cannot be the exact sum
    for both). *)
Lemma getCartTotal_depends_on_item_order :
  let cart := [Catalogue.one 1; Catalogue.one 2; Catalogue.one 3] in
  let reordered := [Catalogue.one 3; Catalogue.one 2; Catalogue.one 1] in
  Permutation cart reordered
  /\ Catalogue.total_of cart = TotalBody 0.6000000000000001
  /\ Catalogue.total_of reordered = TotalBody 0.6
  /\ Catalogue.total_of cart <> Catalogue.total_of reordered.
Proof.
  cbv zeta. split; [| split; [| split]].
  - rewrite <- (rev_involutive [Catalogue.one 1; Catalogue.one 2; Catalogue.one 3]).
    apply Permutation_rev.
  - reflexivity.
  - reflexivity.
  - intros H.
    apply (f_equal (fun b => match b with
                             | TotalBody t => PrimFloat.eqb t 0.6
                             | _ => false
                             end)) in H.
    vm_compute in H. discriminate H.
Qed.

(** C6, counterexample.  An upstream failure with status 404, a body
    message and no [errors] detail, as [axios] raises it: the [error] field
    of the answer is not [undefined], it is the failure's description. *)
Lemma error_field_falls_back_to_description :
  response_errors not_found = None
  /\ fst (addToCart Mock.apiUrl Mock.axios owner_add
            (Mock.start [Mock.rejects KInventory not_found]))
     = {| status := 404;
          json := ErrorEnvelope "Inventory not found"
                    (Some (JString "Request failed with status code 404")) |}.
Proof. split; reflexivity. Qed.

(** C8, counterexample.  The answer to a request that failed validation is
    [{ errors: [...] }]: the body has no [message] field. *)
Lemma validation_answer_has_no_message :
  fst (addToCart Mock.apiUrl Mock.axios invalid_add (Mock.start []))
  = {| status := 400; json := ErrorsBody [quantity_error] |}
  /\ has_message (json (fst (addToCart Mock.apiUrl Mock.axios invalid_add (Mock.start []))))
     = false.
Proof. split; reflexivity. Qed.

(** *** The general theorems at concrete requests *)

(** C4 at work: an add with enough stock, an add without, and an update
    with enough stock. *)
Lemma stock_check_gates_the_mutation_witness :
  let lookup := get_call "http://localhost:5089/api/inventory/1" in
  let add := post_call "http://localhost:5089/api/cart/add" add_body in
  let fetch := get_call "http://localhost:5089/api/cart/item/1" in
  let update := put_call "http://localhost:5089/api/cart/update/1" (body owner_update) in
  addToCart Mock.apiUrl Mock.axios owner_add
    (Mock.start [Mock.resolves KInventory (stock 10 1); Mock.resolves KJson created])
  = ({| status := 201; json := JsonBody created |}, {| world := []; calls := [lookup; add] |})
  /\ addToCart Mock.apiUrl Mock.axios owner_add
       (Mock.start [Mock.resolves KInventory (stock 1 1); Mock.resolves KJson created])
     = ({| status := 400; json := MessageBody "Insufficient stock" |},
        {| world := [Mock.resolves KJson created]; calls := [lookup] |})
  /\ updateCart Mock.apiUrl Mock.axios owner_update
       (Mock.start [Mock.resolves KCartItem (item 1 1 2);
                    Mock.resolves KInventory (stock 10 1);
                    Mock.resolves KJson created])
     = ({| status := 200; json := JsonBody created |},
        {| world := []; calls := [fetch; lookup; update] |}).
Proof.
  cbv zeta.
  destruct (stock_check_gates_the_mutation Mock.apiUrl Mock.axios) as [Hadd Hupdate].
  split; [| split].
  - destruct (Hadd owner_add
                (Mock.start [Mock.resolves KInventory (stock 10 1); Mock.resolves KJson created])
                (stock 10 1) [Mock.resolves KJson created] eq_refl eq_refl eq_refl)
      as [_ Hstock].
    destruct (Hstock eq_refl) as (_ & _ & _ & Hcreated).
    exact (Hcreated created [] eq_refl).
  - destruct (Hadd owner_add
                (Mock.start [Mock.resolves KInventory (stock 1 1); Mock.resolves KJson created])
                (stock 1 1) [Mock.resolves KJson created] eq_refl eq_refl eq_refl)
      as [Hshort _].
    exact (proj1 (Hshort eq_refl)).
  - destruct (Hupdate owner_update
                (Mock.start [Mock.resolves KCartItem (item 1 1 2);
                             Mock.resolves KInventory (stock 10 1);
                             Mock.resolves KJson created])
                (item 1 1 2)
                [Mock.resolves KInventory (stock 10 1); Mock.resolves KJson created]
                (stock 10 1) [Mock.resolves KJson created]
                eq_refl eq_refl eq_refl eq_refl)
      as [_ Hstock].
    destruct (Hstock eq_refl) as (_ & _ & _ & Hupdated).
    exact (Hupdated created [] eq_refl).
Defined.

(** C5 at work: the cart of the test-suite, two units at 5.99 and one at
    3.99, totals 15.97. *)
Lemma getCartTotal_accumulates_in_cart_order_witness :
  getCartTotal Mock.apiUrl Mock.axios owner_path
    (Mock.start [Mock.resolves KCart [item 1 1 2; item 1 2 1];
                 Mock.resolves KInventory (stock 10 5.99);
                 Mock.resolves KInventory (stock 10 3.99)])
  = ({| status := 200; json := TotalBody 15.97 |},
     {| world := [];
        calls := [get_call "http://localhost:5089/api/cart/1";
                  get_call "http://localhost:5089/api/inventory/1";
                  get_call "http://localhost:5089/api/inventory/2"] |}).
Proof.
  refine (proj1 (@getCartTotal_accumulates_in_cart_order Mock.apiUrl Mock.World Mock.axios
                   unit owner_path
                   (Mock.start [Mock.resolves KCart [item 1 1 2; item 1 2 1];
                                Mock.resolves KInventory (stock 10 5.99);
                                Mock.resolves KInventory (stock 10 3.99)])
                   [item 1 1 2; item 1 2 1]
                   [Mock.resolves KInventory (stock 10 5.99);
                    Mock.resolves KInventory (stock 10 3.99)]
                   [stock 10 5.99; stock 10 3.99] [] eq_refl eq_refl _)).
  eapply lookups_cons; [reflexivity |].
  eapply lookups_cons; [reflexivity |].
  apply lookups_nil.
Defined.

(** C6 at work: the inventory lookup of an add is rejected with a 404 that
    has a body message and no [errors] detail; a failure without a
    response. *)
Lemma upstream_failure_is_normalised_witness :
  fst (addToCart Mock.apiUrl Mock.axios owner_add
         (Mock.start [Mock.rejects KInventory not_found]))
  = {| status := 404;
       json := ErrorEnvelope "Inventory not found"
                 (Some (JString "Request failed with status code 404")) |}
  /\ catch_response "Error adding to cart" network_error
     = {| status := 500;
          json := ErrorEnvelope "Error adding to cart" (Some (JString "Network error")) |}.
Proof.
  split.
  - exact (proj1 (proj1 (@upstream_failure_is_normalised Mock.apiUrl Mock.World Mock.axios
                           not_found))
             owner_add (Mock.start [Mock.rejects KInventory not_found]) _
             (@add_lookup_rejected Mock.apiUrl Mock.World Mock.axios owner_add
                (Mock.start [Mock.rejects KInventory not_found]) not_found []
                eq_refl eq_refl eq_refl)).
  - exact (proj2 (proj2 (@upstream_failure_is_normalised Mock.apiUrl Mock.World Mock.axios
                           network_error))
             "Error adding to cart" eq_refl).
Defined.

(** C7 at work: an add and an update whose quantity was refused. *)
Lemma validation_failure_short_circuits_witness :
  addToCart Mock.apiUrl Mock.axios invalid_add
    (Mock.start [Mock.resolves KInventory (stock 10 1)])
  = ({| status := 400; json := ErrorsBody [quantity_error] |},
     Mock.start [Mock.resolves KInventory (stock 10 1)])
  /\ updateCart Mock.apiUrl Mock.axios invalid_update
       (Mock.start [Mock.resolves KInventory (stock 10 1)])
     = ({| status := 400; json := ErrorsBody [quantity_error] |},
        Mock.start [Mock.resolves KInventory (stock 10 1)]).
Proof.
  apply (@validation_failure_short_circuits Mock.apiUrl Mock.World Mock.axios
           invalid_add invalid_update); simpl; discriminate.
Defined.

(** C8 at work: the refusal of an add has a [message]. *)
Lemma failures_carry_a_message_witness :
  has_message (json (fst (addToCart Mock.apiUrl Mock.axios tester_add (Mock.start [])))) = true.
Proof.
  exact (proj1 (proj1 (@failures_carry_a_message Mock.apiUrl Mock.World Mock.axios))
           tester_add (Mock.start []) eq_refl eq_refl).
Defined.

(** C10 at work: the owner's cart is empty. *)
Lemma getCartTotal_empty_cart_witness :
  getCartTotal Mock.apiUrl Mock.axios owner_path (Mock.start [Mock.resolves KCart []])
  = ({| status := 200; json := TotalBody 0 |},
     {| world := []; calls := [get_call "http://localhost:5089/api/cart/1"] |}).
Proof.
  exact (@getCartTotal_empty_cart Mock.apiUrl Mock.World Mock.axios unit owner_path
           (Mock.start [Mock.resolves KCart []]) [] eq_refl eq_refl).
Defined.

End Runs.

(* ===================================================================== *)
(** ** Further runs on concrete requests *)
(* ===================================================================== *)

Module MoreRuns.

Import Scenario.

(** X1 at work: the owner reads a cart of one item. *)
Lemma getCart_returns_the_cart_witness :
  getCart Mock.apiUrl Mock.axios owner_path (Mock.start [Mock.resolves KCart [item 1 1 2]])
  = ({| status := 200; json := CartBody [item 1 1 2] |},
     {| world := []; calls := [get_call "http://localhost:5089/api/cart/1"] |}).
Proof.
  exact (@getCart_returns_the_cart Mock.apiUrl Mock.World Mock.axios unit owner_path
           (Mock.start [Mock.resolves KCart [item 1 1 2]]) [item 1 1 2] [] eq_refl eq_refl).
Defined.

(** X2 at work: the upstream answers the delete with a document. *)
Lemma clearCart_confirms_whatever_the_body_witness :
  clearCart Mock.apiUrl Mock.axios owner_path (Mock.start [Mock.resolves KJson created])
  = ({| status := 200; json := MessageBody "Cart cleared successfully" |},
     {| world := []; calls := [delete_call "http://localhost:5089/api/cart/clear/1"] |}).
Proof.
  exact (@clearCart_confirms_whatever_the_body Mock.apiUrl Mock.World Mock.axios unit owner_path
           (Mock.start [Mock.resolves KJson created]) created [] eq_refl eq_refl).
Defined.

(** X3 at work: the owner removes an item of theirs. *)
Lemma removeFromCart_returns_the_upstream_body_witness :
  removeFromCart Mock.apiUrl Mock.axios owner_item
    (Mock.start [Mock.resolves KCartItem (item 1 1 2); Mock.resolves KJson created])
  = ({| status := 200; json := JsonBody created |},
     {| world := [];
        calls := [get_call "http://localhost:5089/api/cart/item/1";
                  delete_call "http://localhost:5089/api/cart/remove/1"] |}).
Proof.
  exact (@removeFromCart_returns_the_upstream_body Mock.apiUrl Mock.World Mock.axios
           unit owner_item
           (Mock.start [Mock.resolves KCartItem (item 1 1 2); Mock.resolves KJson created])
           (item 1 1 2) [Mock.resolves KJson created] created [] eq_refl eq_refl eq_refl).
Defined.

(** X4 at work: an add that reached the upstream came from the owner. *)
Lemma mutation_only_for_the_owner_witness :
  mutations (calls (snd (addToCart Mock.apiUrl Mock.axios owner_add
                           (Mock.start [Mock.resolves KInventory (stock 10 1);
                                        Mock.resolves KJson created]))))
  = [post_call "http://localhost:5089/api/cart/add" add_body]
  /\ user_id_of owner_add = Some (Js.Str "1").
Proof.
  split; [reflexivity |].
  apply (proj1 (@mutation_only_for_the_owner Mock.apiUrl Mock.World Mock.axios) owner_add
           (Mock.start [Mock.resolves KInventory (stock 10 1); Mock.resolves KJson created])).
  simpl. discriminate.
Defined.

(** X7 at work: the stock lookup of an add is rejected; the prepared
    answer to the POST is still there. *)
Lemma run_stops_at_the_rejected_call_witness :
  snd (addToCart Mock.apiUrl Mock.axios owner_add
         (Mock.start [Mock.rejects KInventory not_found; Mock.resolves KJson created]))
  = {| world := [Mock.resolves KJson created];
       calls := [get_call "http://localhost:5089/api/inventory/1"] |}.
Proof.
  exact (proj1 (@run_stops_at_the_rejected_call Mock.apiUrl Mock.World Mock.axios not_found)
           owner_add
           (Mock.start [Mock.rejects KInventory not_found; Mock.resolves KJson created]) _
           (@add_lookup_rejected Mock.apiUrl Mock.World Mock.axios owner_add
              (Mock.start [Mock.rejects KInventory not_found; Mock.resolves KJson created])
              not_found [Mock.resolves KJson created] eq_refl eq_refl eq_refl)).
Defined.

(** X8 at work: three items, the lookup of the second one fails; the third
    is never looked up. *)
Lemma getCartTotal_stops_at_first_rejection_witness :
  getCartTotal Mock.apiUrl Mock.axios owner_path
    (Mock.start [Mock.resolves KCart [item 1 1 2; item 1 2 1; item 1 3 1];
                 Mock.resolves KInventory (stock 10 5.99);
                 Mock.rejects KInventory not_found;
                 Mock.resolves KInventory (stock 10 3.99)])
  = ({| status := 404;
        json := ErrorEnvelope "Inventory not found"
                  (Some (JString "Request failed with status code 404")) |},
     {| world := [Mock.resolves KInventory (stock 10 3.99)];
        calls := [get_call "http://localhost:5089/api/cart/1";
                  get_call "http://localhost:5089/api/inventory/1";
                  get_call "http://localhost:5089/api/inventory/2"] |}).
Proof.
  refine (@getCartTotal_stops_at_first_rejection Mock.apiUrl Mock.World Mock.axios
            unit owner_path
            (Mock.start [Mock.resolves KCart [item 1 1 2; item 1 2 1; item 1 3 1];
                         Mock.resolves KInventory (stock 10 5.99);
                         Mock.rejects KInventory not_found;
                         Mock.resolves KInventory (stock 10 3.99)])
            [item 1 1 2] (item 1 2 1) [item 1 3 1]
            [Mock.resolves KInventory (stock 10 5.99);
             Mock.rejects KInventory not_found;
             Mock.resolves KInventory (stock 10 3.99)]
            [stock 10 5.99]
            [Mock.rejects KInventory not_found; Mock.resolves KInventory (stock 10 3.99)]
            not_found
            [Mock.resolves KInventory (stock 10 3.99)]
            eq_refl eq_refl _ eq_refl).
  eapply lookups_cons; [reflexivity |]. apply lookups_nil.
Defined.

(** X10 at work: two units asked, two units in stock. *)
Lemma exact_stock_is_sufficient_witness :
  fst (addToCart Mock.apiUrl Mock.axios owner_add
         (Mock.start [Mock.resolves KInventory (stock 2 1); Mock.resolves KJson created]))
  = {| status := 201; json := JsonBody created |}.
Proof.
  exact (proj2 (proj1 (@exact_stock_is_sufficient Mock.apiUrl Mock.World Mock.axios)
                  owner_add
                  (Mock.start [Mock.resolves KInventory (stock 2 1); Mock.resolves KJson created])
                  (stock 2 1) [Mock.resolves KJson created] eq_refl eq_refl eq_refl eq_refl)
           created [] eq_refl).
Defined.

(** X11 at work: the owner of user 1's items asks to remove an item of
    user 2. *)
Lemma foreign_items_are_refused_witness :
  removeFromCart Mock.apiUrl Mock.axios owner_item
    (Mock.start [Mock.resolves KCartItem (item 2 1 2); Mock.resolves KJson created])
  = (refused,
     {| world := [Mock.resolves KJson created];
        calls := [get_call "http://localhost:5089/api/cart/item/1"] |}).
Proof.
  apply (proj1 (@foreign_items_are_refused Mock.apiUrl Mock.World Mock.axios) unit owner_item
           (Mock.start [Mock.resolves KCartItem (item 2 1 2); Mock.resolves KJson created])
           (item 2 1 2) [Mock.resolves KJson created] 1%Z 2%Z);
    [split; reflexivity | split; reflexivity
     | reflexivity | reflexivity | discriminate | reflexivity].
Defined.

(** X12 at work: the owner's requests address [/api/cart/1] and
    [/api/cart/clear/1]. *)
Lemma path_handlers_touch_only_the_actors_cart_witness :
  exists a : Actor,
    user owner_path = Some a
    /\ issued (Mock.start []) (snd (getCart Mock.apiUrl Mock.axios owner_path (Mock.start [])))
         [get_call (cart_url Mock.apiUrl (Js.toString (id a)))]
    /\ issued (Mock.start []) (snd (clearCart Mock.apiUrl Mock.axios owner_path (Mock.start [])))
         [delete_call (cart_clear_url Mock.apiUrl (Js.toString (id a)))]
    /\ exists rest : list AxiosCall,
         issued (Mock.start [])
           (snd (getCartTotal Mock.apiUrl Mock.axios owner_path (Mock.start [])))
           (get_call (cart_url Mock.apiUrl (Js.toString (id a))) :: rest).
Proof.
  exact (@path_handlers_touch_only_the_actors_cart Mock.apiUrl Mock.World Mock.axios
           unit owner_path (Mock.start []) eq_refl).
Defined.

(** X13 at work: from an empty log, the calls of an add go to the API. *)
Lemma every_call_targets_the_api_witness :
  Forall (targets_api Mock.apiUrl)
    (calls (snd (addToCart Mock.apiUrl Mock.axios owner_add
                   (Mock.start [Mock.resolves KInventory (stock 10 1);
                                Mock.resolves KJson created])))).
Proof.
  apply (proj1 (@every_call_targets_the_api Mock.apiUrl Mock.World Mock.axios
                  (Mock.start [Mock.resolves KInventory (stock 10 1);
                               Mock.resolves KJson created])
                  (Forall_nil _))).
Defined.

(** X14 at work: a cart fetch rejected with a blank response. *)
Lemma falsy_failure_fields_fall_back_witness :
  status (fst (getCart Mock.apiUrl Mock.axios owner_path
                 (Mock.start [Mock.rejects KCart blank_failure])))
  = 500%Z.
Proof.
  exact (proj1 (@falsy_failure_fields_fall_back "Error getting cart" blank_failure
                  blank_response eq_refl) eq_refl).
Defined.

End MoreRuns.
